(** * BQ25723 register-access driver (src/Sketch/BQ25723.hpp)

    A shallow embedding of the I2C driver class [BQ25723] and of the
    [TwoWire] transport it talks to, followed by the properties of the
    register operations: gating on the initialization flag, the byte order on
    the wire, the sentinel of the convenience read, the bulk read, address
    invalidation and the register-name lookup. *)

From Stdlib Require Import ZArith Lia.
From stdpp Require Import base gmap list strings.

Local Open Scope Z_scope.

(** ** Fixed-width integers

    [uint8_t] and [uint16_t] values are integers in [Z]; a conversion to the
    narrower type keeps the low bits. *)

Definition u8 (x : Z) : Z := Z.land x 0xFF.
Definition u16 (x : Z) : Z := Z.land x 0xFFFF.

Definition is_u8 (x : Z) : Prop := 0 <= x < 256.
Definition is_u16 (x : Z) : Prop := 0 <= x < 65536.

(** ** Register map (the [#define]s of the header) *)

Definition BQ25723_I2C_ADDR_DEFAULT : Z := 0x6B.
Definition BQ25723_I2C_ADDR_ALT : Z := 0x6A.

Definition BQ25723_REG_CHARGE_OPTION_0 : Z := 0x00.
Definition BQ25723_REG_CHARGE_CURRENT : Z := 0x02.
Definition BQ25723_REG_CHARGE_VOLTAGE : Z := 0x04.
Definition BQ25723_REG_OTG_VOLTAGE : Z := 0x06.
Definition BQ25723_REG_OTG_CURRENT : Z := 0x08.
Definition BQ25723_REG_INPUT_VOLTAGE : Z := 0x0A.
Definition BQ25723_REG_VSYS_MIN : Z := 0x0C.
Definition BQ25723_REG_IIN_HOST : Z := 0x0E.
Definition BQ25723_REG_CHARGER_STATUS : Z := 0x20.
Definition BQ25723_REG_PROCHOT_STATUS : Z := 0x22.
Definition BQ25723_REG_IIN_DPM : Z := 0x24.
Definition BQ25723_REG_ADCVBUS_PSYS : Z := 0x26.
Definition BQ25723_REG_ADCIBAT : Z := 0x28.
Definition BQ25723_REG_ADCIINCMPIN : Z := 0x2A.
Definition BQ25723_REG_ADCVSYSVBAT : Z := 0x2C.
Definition BQ25723_REG_MANUFACTURER_ID : Z := 0x2E.
Definition BQ25723_REG_DEVICE_ID : Z := 0x2F.
Definition BQ25723_REG_CHARGE_OPTION_1 : Z := 0x30.
Definition BQ25723_REG_CHARGE_OPTION_2 : Z := 0x32.
Definition BQ25723_REG_CHARGE_OPTION_3 : Z := 0x34.
Definition BQ25723_REG_PROCHOT_OPTION_0 : Z := 0x36.
Definition BQ25723_REG_PROCHOT_OPTION_1 : Z := 0x38.
Definition BQ25723_REG_ADC_OPTION : Z := 0x3A.
Definition BQ25723_REG_CHARGE_OPTION_4 : Z := 0x3C.
Definition BQ25723_REG_VMIN_ACT_PROT : Z := 0x3E.

(** ** The transport

    [TwoWire] is declared by the Arduino core, outside the repository.  The
    driver uses the calls below; a transport is any state type [W] that
    implements them.  Each call is a transition of the transport state, and
    the calls whose result the C++ interface returns give it back next to the
    new state: the number of bytes queued by [write], the status code of
    [endTransmission] (0 is success), the number of bytes received by
    [requestFrom], and the next received byte (or -1) for [read]. *)

Module Wire.

Class TwoWire (W : Type) : Type := {
  begin : W -> W;
  begin_pins : Z -> Z -> W -> W;
  setClock : Z -> W -> W;
  beginTransmission : Z -> W -> W;
  write : Z -> W -> Z * W;
  endTransmission : bool -> W -> Z * W;
  requestFrom : Z -> Z -> W -> Z * W;
  read : W -> Z * W
}.

(** A transport never delivers more bytes than were requested. *)
Class Bounded (W : Type) `{TwoWire W} : Prop :=
  requestFrom_le : forall a n w, 0 <= n -> 0 <= (requestFrom a n w).1 <= n.

End Wire.

(** ** Memory

    Objects of type [uint16_t] reached through pointers live in a store of
    cells.  A pointer is a cell address or null; [&buffer[i]] is the cell [i]
    places after [buffer]. *)

Abbreviation loc := Z.
Definition ptr : Type := option loc.
Definition nullptr : ptr := None.

Definition is_null (p : ptr) : bool :=
  match p with None => true | Some _ => false end.

Definition index (b : loc) (i : Z) : loc := b + i.

(** The machine: the transport behind [_wire] and the data memory. *)
Record machine (W : Type) : Type := Machine {
  wire : W;
  mem : gmap Z Z
}.
Arguments Machine {W} _ _.
Arguments wire {W} _.
Arguments mem {W} _.

(** ** A state monad for driver code *)

Definition M (W A : Type) : Type := machine W -> A * machine W.

Definition ret {W A} (a : A) : M W A := fun s => (a, s).

Definition bind {W A B} (m : M W A) (k : A -> M W B) : M W B :=
  fun s => let '(a, s1) := m s in k a s1.

Declare Scope drv_scope.
Delimit Scope drv_scope with drv.
Notation "x <- m ;; k" := (bind m (fun x => k))
  (at level 100, m at next level, k at level 200, right associativity) : drv_scope.
Notation "m ;; k" := (bind m (fun _ => k))
  (at level 100, k at level 200, right associativity) : drv_scope.

(** Transport calls and stores, lifted to the machine. *)
Section Lift.
Context {W : Type} `{Wire.TwoWire W}.

Definition on_wire (f : W -> W) : M W unit :=
  fun s => (tt, Machine (f (wire s)) (mem s)).

Definition call_wire {A} (f : W -> A * W) : M W A :=
  fun s => let '(a, w) := f (wire s) in (a, Machine w (mem s)).

(** [*p = v] *)
Definition store (p : loc) (v : Z) : M W unit :=
  fun s => (tt, Machine (wire s) (<[p := v]> (mem s))).

(** [*p] *)
Definition load (p : loc) : M W Z :=
  fun s => (default 0 (mem s !! p), s).

(** A local [uint16_t] comes into scope: a cell that no object occupies,
    without a value. *)
Definition alloca : M W loc :=
  fun s => (fresh (dom (mem s)), s).

(** The local goes out of scope. *)
Definition release (p : loc) : M W unit :=
  fun s => (tt, Machine (wire s) (delete p (mem s))).

End Lift.

(** ** The driver object *)

Record BQ25723 : Type := mkBQ25723 {
  _address : Z;
  _i2cSpeed : Z;
  _initialized : bool
}.

(** The constructor; the header's defaults are [BQ25723_I2C_ADDR_DEFAULT] and
    100000 Hz. *)
Definition new_BQ25723 (address i2cSpeed : Z) : BQ25723 :=
  mkBQ25723 address i2cSpeed false.

Definition set_initialized (b : bool) (d : BQ25723) : BQ25723 :=
  mkBQ25723 (_address d) (_i2cSpeed d) b.

Definition getAddress (d : BQ25723) : Z := _address d.

Definition setAddress (newAddress : Z) (d : BQ25723) : BQ25723 :=
  let d1 := mkBQ25723 newAddress (_i2cSpeed d) (_initialized d) in
  set_initialized false d1.

Definition isInitialized (d : BQ25723) : bool := _initialized d.

Section Driver.
Context {W : Type} `{Wire.TwoWire W}.
Local Open Scope drv_scope.

Definition checkCommunication (d : BQ25723) : M W bool :=
  on_wire (Wire.beginTransmission (_address d)) ;;
  st <- call_wire (Wire.endTransmission true) ;;
  ret (st =? 0).

Definition isConnected (d : BQ25723) : M W bool := checkCommunication d.

Definition begin (d : BQ25723) (sdaPin sclPin : Z) : M W (bool * BQ25723) :=
  (if (sdaPin >=? 0) && (sclPin >=? 0)
   then on_wire (Wire.begin_pins sdaPin sclPin)
   else on_wire Wire.begin) ;;
  on_wire (Wire.setClock (_i2cSpeed d)) ;;
  c <- isConnected d ;;
  if negb c then ret (false, set_initialized false d)
  else ret (true, set_initialized true d).

(** [bool readRegister(uint8_t regAddr, uint16_t* value)] *)
Definition readRegister (d : BQ25723) (regAddr : Z) (value : ptr) : M W bool :=
  if negb (_initialized d) || is_null value then ret false else
  match value with
  | None => ret false
  | Some p =>
    on_wire (Wire.beginTransmission (_address d)) ;;
    _ <- call_wire (Wire.write regAddr) ;;
    st <- call_wire (Wire.endTransmission false) ;;
    if negb (st =? 0) then ret false else
    got <- call_wire (Wire.requestFrom (_address d) 2) ;;
    if negb (got =? 2) then ret false else
    b1 <- call_wire Wire.read ;;
    let lsb := u8 b1 in
    b2 <- call_wire Wire.read ;;
    let msb := u8 b2 in
    store p (u16 (Z.lor (Z.shiftl msb 8) lsb)) ;;
    ret true
  end.

(** [uint16_t readRegister(uint8_t regAddr)], the convenience overload *)
Definition readRegister_value (d : BQ25723) (regAddr : Z) : M W Z :=
  value <- alloca ;;
  ok <- readRegister d regAddr (Some value) ;;
  r <- (if ok then load value else ret 0xFFFF) ;;
  release value ;;
  ret r.

Definition writeRegister (d : BQ25723) (regAddr value : Z) : M W bool :=
  if negb (_initialized d) then ret false else
  on_wire (Wire.beginTransmission (_address d)) ;;
  _ <- call_wire (Wire.write regAddr) ;;
  _ <- call_wire (Wire.write (Z.land value 0xFF)) ;;
  _ <- call_wire (Wire.write (Z.land (Z.shiftr value 8) 0xFF)) ;;
  st <- call_wire (Wire.endTransmission true) ;;
  ret (st =? 0).

(** The [for] loop of [readMultipleRegisters] with [n] iterations left,
    [n = count - i]. *)
Fixpoint readMultiple_loop (n : nat) (d : BQ25723) (startAddr : Z) (buffer : loc)
    (i successCount : Z) : M W Z :=
  match n with
  | O => ret successCount
  | S n' =>
    ok <- readRegister d (u8 (startAddr + i)) (Some (index buffer i)) ;;
    if ok then
      readMultiple_loop n' d startAddr buffer (u8 (i + 1)) (u8 (successCount + 1))
    else
      store (index buffer i) 0xFFFF ;;
      readMultiple_loop n' d startAddr buffer (u8 (i + 1)) successCount
  end.

Definition readMultipleRegisters (d : BQ25723) (startAddr : Z) (buffer : ptr)
    (count : Z) : M W Z :=
  if negb (_initialized d) || is_null buffer || (count =? 0) then ret 0 else
  match buffer with
  | None => ret 0
  | Some b => readMultiple_loop (Z.to_nat count) d startAddr b 0 0
  end.

End Driver.

Local Open Scope string_scope.
Local Open Scope Z_scope.

Definition UNKNOWN : string := "UNKNOWN".

(** [static const char* getRegisterName(uint8_t regAddr)]: the [switch]. *)
Definition getRegisterName (regAddr : Z) : string :=
  if regAddr =? BQ25723_REG_CHARGE_OPTION_0 then "CHARGE_OPTION_0"
  else if regAddr =? BQ25723_REG_CHARGE_CURRENT then "CHARGE_CURRENT"
  else if regAddr =? BQ25723_REG_CHARGE_VOLTAGE then "CHARGE_VOLTAGE"
  else if regAddr =? BQ25723_REG_OTG_VOLTAGE then "OTG_VOLTAGE"
  else if regAddr =? BQ25723_REG_OTG_CURRENT then "OTG_CURRENT"
  else if regAddr =? BQ25723_REG_INPUT_VOLTAGE then "INPUT_VOLTAGE"
  else if regAddr =? BQ25723_REG_VSYS_MIN then "VSYS_MIN"
  else if regAddr =? BQ25723_REG_IIN_HOST then "IIN_HOST"
  else if regAddr =? BQ25723_REG_CHARGER_STATUS then "CHARGER_STATUS"
  else if regAddr =? BQ25723_REG_PROCHOT_STATUS then "PROCHOT_STATUS"
  else if regAddr =? BQ25723_REG_IIN_DPM then "IIN_DPM"
  else if regAddr =? BQ25723_REG_ADCVBUS_PSYS then "ADCVBUS_PSYS"
  else if regAddr =? BQ25723_REG_ADCIBAT then "ADCIBAT"
  else if regAddr =? BQ25723_REG_ADCIINCMPIN then "ADCIINCMPIN"
  else if regAddr =? BQ25723_REG_ADCVSYSVBAT then "ADCVSYSVBAT"
  else if regAddr =? BQ25723_REG_MANUFACTURER_ID then "MANUFACTURER_ID"
  else if regAddr =? BQ25723_REG_DEVICE_ID then "DEVICE_ID"
  else if regAddr =? BQ25723_REG_CHARGE_OPTION_1 then "CHARGE_OPTION_1"
  else if regAddr =? BQ25723_REG_CHARGE_OPTION_2 then "CHARGE_OPTION_2"
  else if regAddr =? BQ25723_REG_CHARGE_OPTION_3 then "CHARGE_OPTION_3"
  else if regAddr =? BQ25723_REG_PROCHOT_OPTION_0 then "PROCHOT_OPTION_0"
  else if regAddr =? BQ25723_REG_PROCHOT_OPTION_1 then "PROCHOT_OPTION_1"
  else if regAddr =? BQ25723_REG_ADC_OPTION then "ADC_OPTION"
  else if regAddr =? BQ25723_REG_CHARGE_OPTION_4 then "CHARGE_OPTION_4"
  else if regAddr =? BQ25723_REG_VMIN_ACT_PROT then "VMIN_ACT_PROT"
  else UNKNOWN.

Local Close Scope string_scope.

(** ** A transport that records the calls made on it

    [Logged W] wraps any transport and appends every call, with its
    arguments and its result, to a log.  A run that leaves the log as it was
    made no call. *)

Inductive event : Type :=
| EvBegin
| EvBeginPins (sda scl : Z)
| EvSetClock (frequency : Z)
| EvBeginTransmission (address : Z)
| EvWrite (byte : Z)
| EvEndTransmission (sendStop : bool) (status : Z)
| EvRequestFrom (address quantity received : Z)
| EvRead (byte : Z).

Record Logged (W : Type) : Type := mkLogged {
  inner : W;
  log : list event
}.
Arguments mkLogged {W} _ _.
Arguments inner {W} _.
Arguments log {W} _.

Section Logging.
Context {W : Type} `{Wire.TwoWire W}.

Definition record_step (e : event) (f : W -> W) (l : Logged W) : Logged W :=
  mkLogged (f (inner l)) (log l ++ [e]).

Definition record_call (e : Z -> event) (f : W -> Z * W) (l : Logged W)
    : Z * Logged W :=
  let '(r, w) := f (inner l) in (r, mkLogged w (log l ++ [e r])).

#[global] Instance Logged_TwoWire : Wire.TwoWire (Logged W) := {|
  Wire.begin := record_step EvBegin Wire.begin;
  Wire.begin_pins sda scl := record_step (EvBeginPins sda scl) (Wire.begin_pins sda scl);
  Wire.setClock f := record_step (EvSetClock f) (Wire.setClock f);
  Wire.beginTransmission a :=
    record_step (EvBeginTransmission a) (Wire.beginTransmission a);
  Wire.write b := record_call (fun _ => EvWrite b) (Wire.write b);
  Wire.endTransmission stop :=
    record_call (EvEndTransmission stop) (Wire.endTransmission stop);
  Wire.requestFrom a n := record_call (EvRequestFrom a n) (Wire.requestFrom a n);
  Wire.read := record_call EvRead Wire.read
|}.

End Logging.

(** ** A simulated device

    The fake transport that the testable properties of the specification
    speak of.  One device sits on the bus; it acknowledges its own address,
    keeps the two data bytes last written to a register and sends them back,
    in the order they came, when that register is read.  Reads of the
    registers in [mute] deliver no byte. *)

Module Fake.

Record device : Type := Device {
  dev_address : Z;
  regs : gmap Z (Z * Z);
  mute : gset Z;
  target : Z;
  txbuf : list Z;
  pointer : Z;
  rxbuf : list Z
}.

Definition beginTransmission (a : Z) (dv : device) : device :=
  Device (dev_address dv) (regs dv) (mute dv) a [] (pointer dv) (rxbuf dv).

Definition write (b : Z) (dv : device) : Z * device :=
  (1, Device (dev_address dv) (regs dv) (mute dv) (target dv)
        (txbuf dv ++ [u8 b]) (pointer dv) (rxbuf dv)).

(** What the device does with a transmission it acknowledged: the first
    byte selects a register, two data bytes after it are stored there. *)
Definition commit (dv : device) : device :=
  match txbuf dv with
  | [] => dv
  | r :: data =>
    let regs' :=
      match data with
      | lo :: hi :: _ => <[r := (lo, hi)]> (regs dv)
      | _ => regs dv
      end in
    Device (dev_address dv) regs' (mute dv) (target dv) [] r (rxbuf dv)
  end.

Definition endTransmission (sendStop : bool) (dv : device) : Z * device :=
  if target dv =? dev_address dv then (0, commit dv)
  else (2, Device (dev_address dv) (regs dv) (mute dv) (target dv) []
             (pointer dv) (rxbuf dv)).

Definition requestFrom (a n : Z) (dv : device) : Z * device :=
  let bytes :=
    if (a =? dev_address dv) && negb (bool_decide (pointer dv ∈ mute dv)) then
      let '(lo, hi) := default (0, 0) (regs dv !! pointer dv) in
      take (Z.to_nat n) [lo; hi]
    else [] in
  (Z.of_nat (length bytes),
   Device (dev_address dv) (regs dv) (mute dv) (target dv) (txbuf dv)
     (pointer dv) bytes).

Definition read (dv : device) : Z * device :=
  match rxbuf dv with
  | [] => (-1, dv)
  | b :: rest =>
    (b, Device (dev_address dv) (regs dv) (mute dv) (target dv) (txbuf dv)
          (pointer dv) rest)
  end.

#[global] Instance device_TwoWire : Wire.TwoWire device := {|
  Wire.begin := id;
  Wire.begin_pins _ _ := id;
  Wire.setClock _ := id;
  Wire.beginTransmission := beginTransmission;
  Wire.write := write;
  Wire.endTransmission := endTransmission;
  Wire.requestFrom := requestFrom;
  Wire.read := read
|}.

(** A device at bus address [a] holding [rs], idle. *)
Definition fresh_device (a : Z) (rs : gmap Z (Z * Z)) (m : gset Z) : device :=
  Device a rs m 0 [] 0 [].

End Fake.

(** ** The single-register read as the specification words it

    The protocol of a read, step by step, with the three ways it fails kept
    apart: no successful probe yet, the address phase not acknowledged, fewer
    than two bytes delivered.  It is compared with [readRegister] below. *)

Inductive read_error : Type :=
| NotInitialized
| BusWriteError
| BusReadError.

Section Outcome.
Context {W : Type} `{Wire.TwoWire W}.

Definition read_outcome (d : BQ25723) (regAddr : Z) (w : W) : (read_error + Z) * W :=
  if _initialized d then
    let w1 := Wire.beginTransmission (_address d) w in
    let '(_, w2) := Wire.write regAddr w1 in
    let '(status, w3) := Wire.endTransmission false w2 in
    if status =? 0 then
      let '(received, w4) := Wire.requestFrom (_address d) 2 w3 in
      if received <? 2 then (inl BusReadError, w4)
      else
        let '(firstByte, w5) := Wire.read w4 in
        let '(secondByte, w6) := Wire.read w5 in
        (inr (Z.lor (Z.shiftl (u8 secondByte) 8) (u8 firstByte)), w6)
    else (inl BusWriteError, w3)
  else (inl NotInitialized, w).

(** What the caller of the convenience form sees of an outcome. *)
Definition sentinel_of (r : read_error + Z) : Z :=
  match r with inl _ => 0xFFFF | inr v => v end.

Definition succeeded (r : read_error + Z) : bool :=
  match r with inl _ => false | inr _ => true end.

(** [n] independent reads at the addresses [startAddr + i], [startAddr + i + 1],
    ... (register addresses are 8 bits wide), one after the other on the
    same transport, whatever the outcome of the one before. *)
Fixpoint read_each (n : nat) (d : BQ25723) (startAddr i : Z) (w : W)
    : list (read_error + Z) * W :=
  match n with
  | O => ([], w)
  | S n' =>
    let '(r, w1) := read_outcome d (u8 (startAddr + i)) w in
    let '(rs, w2) := read_each n' d startAddr (i + 1) w1 in
    (r :: rs, w2)
  end.

Definition count_succeeded (rs : list (read_error + Z)) : Z :=
  Z.of_nat (length (filter (fun r => succeeded r = true) rs)).

(** The statement made about [readMultipleRegisters] for a start address, a
    buffer and a count: the transport has seen [count] reads, the result
    counts those that succeeded, slot [i] of the buffer holds the value of
    read [i] or the sentinel, and no other cell changed. *)
Definition bulk_read_performed (d : BQ25723) (startAddr : Z) (buffer : ptr)
    (count : Z) (s : machine W) : Prop :=
  let reads := read_each (Z.to_nat count) d startAddr 0 (wire s) in
  let run := readMultipleRegisters d startAddr buffer count s in
  length reads.1 = Z.to_nat count /\
  wire run.2 = reads.2 /\
  run.1 = count_succeeded reads.1 /\
  forall b, buffer = Some b ->
    (forall (i : nat) r, reads.1 !! i = Some r ->
       mem run.2 !! index b (Z.of_nat i) = Some (sentinel_of r)) /\
    (forall l, ~ (b <= l < b + count) -> mem run.2 !! l = mem s !! l).

End Outcome.

(** ** The documented catalog of register addresses *)

Definition evens (first : Z) (n : nat) : list Z :=
  map (fun k => first + 2 * Z.of_nat k) (seq 0 n).

(** 0x00-0x0E even, 0x20-0x2C even, 0x2E, 0x2F, 0x30-0x3E even. *)
Definition catalog : list Z :=
  evens 0x00 8 ++ evens 0x20 7 ++ [0x2E; 0x2F] ++ evens 0x30 8.

(** The name token of each register, as the header names it
    ([BQ25723_REG_X] is register [X]). *)
Definition register_names : list (Z * string) :=
  [ (BQ25723_REG_CHARGE_OPTION_0, "CHARGE_OPTION_0");
    (BQ25723_REG_CHARGE_CURRENT, "CHARGE_CURRENT");
    (BQ25723_REG_CHARGE_VOLTAGE, "CHARGE_VOLTAGE");
    (BQ25723_REG_OTG_VOLTAGE, "OTG_VOLTAGE");
    (BQ25723_REG_OTG_CURRENT, "OTG_CURRENT");
    (BQ25723_REG_INPUT_VOLTAGE, "INPUT_VOLTAGE");
    (BQ25723_REG_VSYS_MIN, "VSYS_MIN");
    (BQ25723_REG_IIN_HOST, "IIN_HOST");
    (BQ25723_REG_CHARGER_STATUS, "CHARGER_STATUS");
    (BQ25723_REG_PROCHOT_STATUS, "PROCHOT_STATUS");
    (BQ25723_REG_IIN_DPM, "IIN_DPM");
    (BQ25723_REG_ADCVBUS_PSYS, "ADCVBUS_PSYS");
    (BQ25723_REG_ADCIBAT, "ADCIBAT");
    (BQ25723_REG_ADCIINCMPIN, "ADCIINCMPIN");
    (BQ25723_REG_ADCVSYSVBAT, "ADCVSYSVBAT");
    (BQ25723_REG_MANUFACTURER_ID, "MANUFACTURER_ID");
    (BQ25723_REG_DEVICE_ID, "DEVICE_ID");
    (BQ25723_REG_CHARGE_OPTION_1, "CHARGE_OPTION_1");
    (BQ25723_REG_CHARGE_OPTION_2, "CHARGE_OPTION_2");
    (BQ25723_REG_CHARGE_OPTION_3, "CHARGE_OPTION_3");
    (BQ25723_REG_PROCHOT_OPTION_0, "PROCHOT_OPTION_0");
    (BQ25723_REG_PROCHOT_OPTION_1, "PROCHOT_OPTION_1");
    (BQ25723_REG_ADC_OPTION, "ADC_OPTION");
    (BQ25723_REG_CHARGE_OPTION_4, "CHARGE_OPTION_4");
    (BQ25723_REG_VMIN_ACT_PROT, "VMIN_ACT_PROT") ]%string.

(** ** A test bench

    A charger at the default address whose device-identity register reads
    0x0023 and whose register 0x04 does not answer reads, behind a recording
    transport; one word of data memory is in use. *)

Module Bench.

Definition unprobed : BQ25723 := new_BQ25723 BQ25723_I2C_ADDR_DEFAULT 100000.

Definition charger : BQ25723 := mkBQ25723 BQ25723_I2C_ADDR_DEFAULT 100000 true.

Definition chip : Fake.device :=
  Fake.fresh_device BQ25723_I2C_ADDR_DEFAULT
    {[ BQ25723_REG_DEVICE_ID := (0x23, 0x00);
       BQ25723_REG_CHARGE_CURRENT := (0x70, 0x17);
       BQ25723_REG_OTG_VOLTAGE := (0x34, 0x12) ]}
    {[ BQ25723_REG_CHARGE_VOLTAGE ]}.

Definition bench : machine (Logged Fake.device) :=
  Machine (mkLogged chip []) {[ 10 := 0x1234 ]}.

End Bench.

(** ** The calls a read and a probe make, as functions of the transport

    [read_events d regAddr w] lists the calls that a read of [regAddr] past
    the guard makes on a transport in state [w], with the results the
    transport gives; [probe_events] does the same for the liveness probe. *)

Section Events.
Context {W : Type} `{Wire.TwoWire W}.

Definition read_events (d : BQ25723) (regAddr : Z) (w : W) : list event :=
  let w1 := Wire.beginTransmission (_address d) w in
  let r2 := Wire.write regAddr w1 in
  let r3 := Wire.endTransmission false r2.2 in
  [EvBeginTransmission (_address d); EvWrite regAddr;
   EvEndTransmission false r3.1] ++
  (if r3.1 =? 0 then
     let r4 := Wire.requestFrom (_address d) 2 r3.2 in
     EvRequestFrom (_address d) 2 r4.1 ::
     (if r4.1 =? 2 then
        let r5 := Wire.read r4.2 in
        let r6 := Wire.read r5.2 in
        [EvRead r5.1; EvRead r6.1]
      else [])
   else []).

Definition probe_events (address : Z) (w : W) : list event :=
  [EvBeginTransmission address;
   EvEndTransmission true
     (Wire.endTransmission true (Wire.beginTransmission address w)).1].

End Events.


Definition begun_addresses (l : list event) : list Z :=
  omap (fun e => match e with EvBeginTransmission a => Some a | _ => None end) l.

Definition is_data_call (e : event) : bool :=
  match e with
  | EvWrite _ | EvRequestFrom _ _ _ | EvRead _ => true
  | _ => false
  end.

(** ** The board: the bus and the serial console

    The sketch prints on [Serial] and waits with [delay]; both belong to the
    Arduino core.  The board keeps the calls made on them, in order, next to
    the transport; the transport calls go to the bus and leave the console
    alone. *)

Inductive serial_event : Type :=
| SerialBegin (baud : Z)
| SerialPrint (text : string)
| SerialPrintln (text : string)
| SerialPrintHex (n : Z)
| SerialPrintlnHex (n : Z)
| SerialPrintlnDec (n : Z)
| SerialNewline
| Delay (ms : Z).

Record Board (W : Type) : Type := mkBoard {
  bus : W;
  console : list serial_event
}.
Arguments mkBoard {W} _ _.
Arguments bus {W} _.
Arguments console {W} _.

Section Boards.
Context {W : Type} `{Wire.TwoWire W}.

Definition bus_step (f : W -> W) (b : Board W) : Board W :=
  mkBoard (f (bus b)) (console b).

Definition bus_call (f : W -> Z * W) (b : Board W) : Z * Board W :=
  let '(r, w) := f (bus b) in (r, mkBoard w (console b)).

#[global] Instance Board_TwoWire : Wire.TwoWire (Board W) := {|
  Wire.begin := bus_step Wire.begin;
  Wire.begin_pins sda scl := bus_step (Wire.begin_pins sda scl);
  Wire.setClock f := bus_step (Wire.setClock f);
  Wire.beginTransmission a := bus_step (Wire.beginTransmission a);
  Wire.write b := bus_call (Wire.write b);
  Wire.endTransmission stop := bus_call (Wire.endTransmission stop);
  Wire.requestFrom a n := bus_call (Wire.requestFrom a n);
  Wire.read := bus_call Wire.read
|}.

(** A call on [Serial], or [delay]. *)
Definition serial (e : serial_event) : M (Board W) unit :=
  fun s => (tt, Machine (mkBoard (bus (wire s)) (console (wire s) ++ [e])) (mem s)).

(** A machine seen as part of a board with console [c]. *)
Definition on_board (c : list serial_event) (s : machine W) : machine (Board W) :=
  Machine (mkBoard (wire s) c) (mem s).

End Boards.

(** ** The sketch (src/Sketch/Sketch.ino, and the variant that follows the
    header in src/Sketch/BQ25723.hpp) *)

Module Sketch.

Definition SDA_PIN : Z := 21.
Definition SCL_PIN : Z := 22.

(** The global [charger]. *)
Definition charger : BQ25723 := new_BQ25723 BQ25723_I2C_ADDR_DEFAULT 100000.

Definition knownRegisters : list Z :=
  [ BQ25723_REG_CHARGE_OPTION_0; BQ25723_REG_CHARGE_CURRENT;
    BQ25723_REG_CHARGE_VOLTAGE; BQ25723_REG_OTG_VOLTAGE;
    BQ25723_REG_OTG_CURRENT; BQ25723_REG_INPUT_VOLTAGE;
    BQ25723_REG_VSYS_MIN; BQ25723_REG_IIN_HOST;
    BQ25723_REG_CHARGER_STATUS; BQ25723_REG_PROCHOT_STATUS;
    BQ25723_REG_IIN_DPM; BQ25723_REG_ADCVBUS_PSYS;
    BQ25723_REG_ADCIBAT; BQ25723_REG_ADCIINCMPIN;
    BQ25723_REG_ADCVSYSVBAT; BQ25723_REG_MANUFACTURER_ID;
    BQ25723_REG_DEVICE_ID; BQ25723_REG_CHARGE_OPTION_1;
    BQ25723_REG_CHARGE_OPTION_2; BQ25723_REG_CHARGE_OPTION_3;
    BQ25723_REG_PROCHOT_OPTION_0; BQ25723_REG_PROCHOT_OPTION_1;
    BQ25723_REG_ADC_OPTION; BQ25723_REG_CHARGE_OPTION_4;
    BQ25723_REG_VMIN_ACT_PROT ].

Definition not_found_message : string :=
  "BQ25723 not found at expected I2C address (0x6B or 0x6A)."%string.

Definition dumping_message : string :=
  String (Ascii.ascii_of_nat 10) "Dumping BQ25723 Registers:"%string.

Section Programs.
Context {W : Type} `{Wire.TwoWire W}.
Local Open Scope drv_scope.

(** What the scan prints for an address that acknowledged. *)
Definition report_found (address : Z) : M (Board W) unit :=
  serial (SerialPrint "I2C device found at 0x"%string) ;;
  (if address <? 16 then serial (SerialPrint "0"%string) else ret tt) ;;
  serial (SerialPrintHex address) ;;
  serial SerialNewline.

(** The [for] loop of [scanI2CBus] with [n] addresses left, [n = 127 - address]. *)
Fixpoint scan_loop (n : nat) (address count : Z) : M (Board W) Z :=
  match n with
  | O => ret count
  | S n' =>
    on_wire (Wire.beginTransmission address) ;;
    st <- call_wire (Wire.endTransmission true) ;;
    count' <- (if st =? 0 then report_found address ;; ret (u8 (count + 1))
               else ret count) ;;
    serial (Delay 5) ;;
    scan_loop n' (u8 (address + 1)) count'
  end.

Definition scanI2CBus : M (Board W) unit :=
  serial (SerialPrintln "Scanning I2C bus..."%string) ;;
  count <- scan_loop 126 1 0 ;;
  if count =? 0 then serial (SerialPrintln "No I2C devices found."%string)
  else
    serial (SerialPrint "Total I2C devices found: "%string) ;;
    serial (SerialPrintlnDec count).

(** The body of the dump loop for one register. *)
Definition dump_register (d : BQ25723) (reg : Z) : M (Board W) unit :=
  value <- readRegister_value d reg ;;
  serial (SerialPrint "0x"%string) ;;
  (if reg <? 0x10 then serial (SerialPrint "0"%string) else ret tt) ;;
  serial (SerialPrintHex reg) ;;
  serial (SerialPrint " ("%string) ;;
  serial (SerialPrint (getRegisterName reg)) ;;
  serial (SerialPrint "): 0x"%string) ;;
  serial (SerialPrintlnHex value).

(** The dump loop: the elements of the array in index order. *)
Fixpoint dump_loop (regs : list Z) (d : BQ25723) : M (Board W) unit :=
  match regs with
  | [] => ret tt
  | reg :: rest => dump_register d reg ;; dump_loop rest d
  end.

(** What both variants of [setup] do first. *)
Definition setup_bus : M (Board W) unit :=
  serial (SerialBegin 115200) ;;
  serial (Delay 1000) ;;
  on_wire (Wire.begin_pins SDA_PIN SCL_PIN) ;;
  on_wire (Wire.setClock 100000) ;;
  scanI2CBus.

(** [setup] of Sketch.ino; it returns the global [charger] as [begin]
    leaves it. *)
Definition setup (c : BQ25723) : M (Board W) BQ25723 :=
  setup_bus ;;
  r <- begin c SDA_PIN SCL_PIN ;;
  if r.1 then
    serial (SerialPrintln dumping_message) ;;
    dump_loop knownRegisters r.2 ;;
    ret r.2
  else
    serial (SerialPrintln not_found_message) ;;
    ret r.2.


Definition loop : M (Board W) unit := ret tt.

End Programs.

(** A board with the bench chip on its bus, behind the recorder. *)
Definition bench : machine (Board (Logged Fake.device)) :=
  Machine (mkBoard (mkLogged Bench.chip []) []) ∅.

(** The same board with a chip that answers at the alternate address only. *)
Definition bench_alt : machine (Board (Logged Fake.device)) :=
  Machine (mkBoard (mkLogged (Fake.fresh_device BQ25723_I2C_ADDR_ALT ∅ ∅) []) []) ∅.

End Sketch.

(** ** What a scan and a dump show, as functions of what the bus answered

    A probe is an address with the status its empty transmission got; a
    reading is a register with the value the convenience read returned. *)

Definition scan_addresses : list Z := map Z.of_nat (seq 1 126).

Definition scan_bus (probes : list (Z * Z)) : list event :=
  flat_map (fun p => [EvBeginTransmission p.1; EvEndTransmission true p.2]) probes.

Definition found_lines (address : Z) : list serial_event :=
  [SerialPrint "I2C device found at 0x"%string] ++
  (if address <? 16 then [SerialPrint "0"%string] else []) ++
  [SerialPrintHex address; SerialNewline].

Definition scan_console (probes : list (Z * Z)) : list serial_event :=
  flat_map (fun p => (if p.2 =? 0 then found_lines p.1 else []) ++ [Delay 5])
           probes.

Definition acknowledged (probes : list (Z * Z)) : list Z :=
  (filter (fun p => p.2 = 0) probes).*1.

Definition scan_summary (probes : list (Z * Z)) : list serial_event :=
  match acknowledged probes with
  | [] => [SerialPrintln "No I2C devices found."%string]
  | found =>
    [SerialPrint "Total I2C devices found: "%string;
     SerialPrintlnDec (Z.of_nat (length found))]
  end.


Definition no_data_call (l : list event) : Prop :=
  forallb (fun e => negb (is_data_call e)) l = true.

(** The numbers printed in hexadecimal without a line end: in a scan, the
    addresses reported as found. *)
Definition reported (c : list serial_event) : list Z :=
  omap (fun e => match e with SerialPrintHex n => Some n | _ => None end) c.

(** * Properties *)

(** ** Integer facts *)

Lemma u8_range x : 0 <= u8 x < 256.
Proof.
  unfold u8. change 0xFF with (Z.ones 8). rewrite Z.land_ones by lia.
  apply Z.mod_pos_bound. lia.
Qed.

Lemma u8_id x : is_u8 x -> u8 x = x.
Proof.
  intros Hx. unfold u8. change 0xFF with (Z.ones 8). rewrite Z.land_ones by lia.
  apply Z.mod_small. exact Hx.
Qed.

Lemma u16_id x : is_u16 x -> u16 x = x.
Proof.
  intros Hx. unfold u16. change 0xFFFF with (Z.ones 16).
  rewrite Z.land_ones by lia. apply Z.mod_small. exact Hx.
Qed.

Lemma land_255 x : Z.land x 0xFF = x mod 256.
Proof. change 0xFF with (Z.ones 8). rewrite Z.land_ones by lia. reflexivity. Qed.

Lemma shiftr_8 x : Z.shiftr x 8 = x / 256.
Proof. rewrite Z.shiftr_div_pow2 by lia. reflexivity. Qed.

(** A byte below a value shifted by eight bits: the two do not overlap. *)
Lemma land_shiftl_8 hi lo : is_u8 lo -> Z.land (Z.shiftl hi 8) lo = 0.
Proof.
  intros Hlo. apply Z.bits_inj'. intros n Hn. rewrite Z.land_spec, Z.bits_0.
  destruct (Z.lt_ge_cases n 8) as [Hlt | Hge].
  - rewrite Z.shiftl_spec_low by lia. reflexivity.
  - destruct (Z.eq_dec lo 0) as [-> | Hnz].
    + rewrite Z.bits_0. apply andb_false_r.
    + rewrite (Z.bits_above_log2 lo n); [apply andb_false_r | apply Hlo |].
      assert (Z.log2 lo < 8); [| lia].
      apply Z.log2_lt_pow2; unfold is_u8 in Hlo; lia.
Qed.

Lemma lor_shiftl_8 hi lo :
  is_u8 lo -> Z.lor (Z.shiftl hi 8) lo = hi * 256 + lo.
Proof.
  intros Hlo. pose proof (land_shiftl_8 hi lo Hlo) as Hdisj.
  rewrite <- Z.lxor_lor, <- Z.add_nocarry_lxor by exact Hdisj.
  rewrite Z.shiftl_mul_pow2 by lia. reflexivity.
Qed.

(** Two bytes, the second shifted over the first, fit 16 bits. *)
Lemma combine_is_u16 b1 b2 : is_u16 (Z.lor (Z.shiftl (u8 b2) 8) (u8 b1)).
Proof.
  pose proof (u8_range b1) as H1. pose proof (u8_range b2) as H2.
  rewrite lor_shiftl_8 by exact H1. unfold is_u16. lia.
Qed.

Lemma u16_combine b1 b2 :
  u16 (Z.lor (Z.shiftl (u8 b2) 8) (u8 b1)) = Z.lor (Z.shiftl (u8 b2) 8) (u8 b1).
Proof. apply u16_id, combine_is_u16. Qed.

(** The low byte and the high byte of a 16-bit value give the value back. *)
Lemma split_combine v :
  is_u16 v ->
  Z.lor (Z.shiftl (u8 (Z.land (Z.shiftr v 8) 0xFF)) 8) (u8 (Z.land v 0xFF)) = v.
Proof.
  intros Hv. unfold is_u16 in Hv.
  rewrite lor_shiftl_8 by apply u8_range.
  unfold u8. rewrite !land_255, shiftr_8.
  rewrite !Z.mod_mod by lia.
  assert (Hq : 0 <= v / 256 < 256).
  { split; [apply Z.div_pos; lia | apply Z.div_lt_upper_bound; lia]. }
  rewrite (Z.mod_small (v / 256)) by exact Hq.
  pose proof (Z.div_mod v 256). lia.
Qed.

(** ** Memory facts *)

Lemma fresh_cell (m : gmap Z Z) : m !! fresh (dom m) = None.
Proof. apply not_elem_of_dom, is_fresh. Qed.

Lemma release_fresh (m : gmap Z Z) : delete (fresh (dom m)) m = m.
Proof. apply delete_id, fresh_cell. Qed.

Lemma release_store_fresh (m : gmap Z Z) v :
  delete (fresh (dom m)) (<[fresh (dom m) := v]> m) = m.
Proof. rewrite delete_insert_eq. apply release_fresh. Qed.

(** ** The driver against any transport *)

Section Any_transport.
Context {W : Type} `{Wire.TwoWire W}.

Lemma machine_eta (s : machine W) : Machine (wire s) (mem s) = s.
Proof. destruct s; reflexivity. Qed.

(** The guard at the head of [readRegister]. *)
Lemma readRegister_guard d regAddr value (s : machine W) :
  negb (_initialized d) || is_null value = true ->
  readRegister d regAddr value s = (false, s).
Proof. intros Hg. unfold readRegister. rewrite Hg. reflexivity. Qed.

(** Past the guard, [readRegister] runs the calls of the protocol in
    order; what it stores is the 16-bit value of the two bytes. *)
Lemma readRegister_run d regAddr p (s : machine W) :
  _initialized d = true ->
  readRegister d regAddr (Some p) s =
    let w1 := Wire.beginTransmission (_address d) (wire s) in
    let r2 := Wire.write regAddr w1 in
    let r3 := Wire.endTransmission false r2.2 in
    if r3.1 =? 0 then
      let r4 := Wire.requestFrom (_address d) 2 r3.2 in
      if r4.1 =? 2 then
        let r5 := Wire.read r4.2 in
        let r6 := Wire.read r5.2 in
        (true, Machine r6.2
                 (<[p := Z.lor (Z.shiftl (u8 r6.1) 8) (u8 r5.1)]> (mem s)))
      else (false, Machine r4.2 (mem s))
    else (false, Machine r3.2 (mem s)).
Proof.
  intros Hi. unfold readRegister, bind, on_wire, call_wire, store, ret.
  rewrite Hi. cbn.
  destruct (Wire.write regAddr _) as [n2 w2]. cbn.
  destruct (Wire.endTransmission false w2) as [st w3]. cbn.
  destruct (st =? 0); cbn; [| reflexivity].
  destruct (Wire.requestFrom (_address d) 2 w3) as [got w4]. cbn.
  destruct (got =? 2); cbn; [| reflexivity].
  destruct (Wire.read w4) as [b1 w5]. cbn.
  destruct (Wire.read w5) as [b2 w6]. cbn.
  rewrite u16_combine. reflexivity.
Qed.

(** [readRegister] either fails and leaves the memory alone, or succeeds
    and has written one cell, the one it was given. *)
Lemma readRegister_mem d regAddr value (s : machine W) :
  match readRegister d regAddr value s with
  | (false, s') => mem s' = mem s
  | (true, s') => exists p v, value = Some p /\ mem s' = <[p := v]> (mem s)
  end.
Proof.
  destruct (negb (_initialized d) || is_null value) eqn:Hg.
  - rewrite readRegister_guard by exact Hg. reflexivity.
  - apply orb_false_elim in Hg as [Hi Hn].
    apply negb_false_iff in Hi. destruct value as [p |]; [| discriminate].
    rewrite readRegister_run by exact Hi. cbv zeta.
    destruct (_ =? 0); [| reflexivity].
    destruct (_ =? 2); [| reflexivity].
    eexists _, _. split; reflexivity.
Qed.

(** C9: in every driver state, the initialized one included, the
    pointer-taking [readRegister] called with a null [value] returns false,
    and the machine it returns is the one it was given: no call reached the
    transport and no cell was read or written.  The test sits in the guard,
    ahead of the first bus call. *)
Theorem readRegister_null_pointer d regAddr (s : machine W) :
  readRegister d regAddr nullptr s = (false, s).
Proof.
  apply readRegister_guard. cbn [nullptr is_null]. apply orb_true_r.
Qed.

(** C10: whenever the pointer-taking [readRegister] returns false, for
    whichever reason, the memory is what it was before the call, and so is
    the cell [value] points to, whatever it held. *)
Theorem readRegister_failure_keeps_memory d regAddr value (s : machine W) :
  (readRegister d regAddr value s).1 = false ->
  mem (readRegister d regAddr value s).2 = mem s /\
  forall p, value = Some p ->
    mem (readRegister d regAddr value s).2 !! p = mem s !! p.
Proof.
  intros Hf. pose proof (readRegister_mem d regAddr value s) as Hm.
  destruct (readRegister d regAddr value s) as [[|] s']; cbn in *.
  - discriminate.
  - split; [exact Hm | intros p _; rewrite Hm; reflexivity].
Qed.

(** C1: on a driver whose [_initialized] flag is false, [readRegister]
    returns false, its convenience form returns 0xFFFF, [writeRegister]
    returns false and [readMultipleRegisters] returns 0; each of them hands
    back the machine unchanged, for every transport, so none of them made a
    call on it. *)
Theorem uninitialized_no_io d regAddr value v startAddr buffer count
    (s : machine W) :
  _initialized d = false ->
  readRegister d regAddr value s = (false, s) /\
  readRegister_value d regAddr s = (0xFFFF, s) /\
  writeRegister d regAddr v s = (false, s) /\
  readMultipleRegisters d startAddr buffer count s = (0, s).
Proof.
  intros Hi.
  assert (Hg : forall p, negb (_initialized d) || is_null p = true).
  { intros p. rewrite Hi. reflexivity. }
  split; [| split; [| split]].
  - apply readRegister_guard, Hg.
  - unfold readRegister_value, bind, alloca.
    rewrite readRegister_guard by apply Hg.
    cbn. rewrite release_fresh, machine_eta. reflexivity.
  - unfold writeRegister. rewrite Hi. reflexivity.
  - unfold readMultipleRegisters. rewrite Hi. reflexivity.
Qed.

End Any_transport.

(** ** The driver against a transport that keeps to the requested length *)

Section Bounded_transport.
Context {W : Type} `{Wire.Bounded W}.

(** [readRegister] does what the protocol says: it succeeds exactly when
    the outcome is a value, which it stores, and fails, storing nothing,
    when the outcome is an error. *)
Lemma readRegister_outcome d regAddr p (s : machine W) :
  readRegister d regAddr (Some p) s =
    let r := read_outcome d regAddr (wire s) in
    (succeeded r.1,
     Machine r.2 (match r.1 with
                  | inr v => <[p := v]> (mem s)
                  | inl _ => mem s
                  end)).
Proof.
  unfold read_outcome. destruct (_initialized d) eqn:Hi.
  - rewrite readRegister_run by exact Hi. cbv zeta.
    destruct (Wire.write regAddr _) as [n2 w2]. cbn [fst snd].
    destruct (Wire.endTransmission false w2) as [st w3]. cbn [fst snd].
    destruct (st =? 0); [| reflexivity].
    pose proof (Wire.requestFrom_le (_address d) 2 w3 ltac:(lia)) as Hle.
    destruct (Wire.requestFrom (_address d) 2 w3) as [got w4]. cbn [fst snd] in *.
    destruct (Z.eqb_spec got 2) as [-> | Hne].
    + cbn. destruct (Wire.read w4) as [b1 w5]. cbn [fst snd].
      destruct (Wire.read w5) as [b2 w6]. reflexivity.
    + destruct (Z.ltb_spec got 2) as [_ | Hge]; [reflexivity | lia].
  - rewrite readRegister_guard by (rewrite Hi; reflexivity).
    cbn. rewrite machine_eta. reflexivity.
Qed.

(** The convenience form returns the value of the outcome, or the sentinel
    for an error, and hands the memory back as it was. *)
Lemma readRegister_value_outcome d regAddr (s : machine W) :
  readRegister_value d regAddr s =
    let r := read_outcome d regAddr (wire s) in
    (sentinel_of r.1, Machine r.2 (mem s)).
Proof.
  unfold readRegister_value, bind, alloca.
  rewrite readRegister_outcome. cbv zeta.
  destruct (read_outcome d regAddr (wire s)) as [[e | v] w']; cbn.
  - rewrite release_fresh. reflexivity.
  - rewrite lookup_insert_eq, release_store_fresh. reflexivity.
Qed.

(** C5: with [status] the status of the address phase, [received] the
    number of bytes the request for 2 delivers, and [value] the two bytes
    read, the second shifted over the first: the convenience [readRegister]
    returns the sentinel 0xFFFF whenever the read fails at some step (the
    driver is uninitialized, the address phase is not acknowledged, or fewer
    than 2 bytes are delivered), it returns [value] when no step fails, and
    so it returns 0xFFFF only if a step failed or the value read is 0xFFFF. *)
Theorem readRegister_value_sentinel d regAddr (s : machine W) :
  let addressed :=
    Wire.endTransmission false
      (Wire.write regAddr (Wire.beginTransmission (_address d) (wire s))).2 in
  let status := addressed.1 in
  let requested := Wire.requestFrom (_address d) 2 addressed.2 in
  let received := requested.1 in
  let first := Wire.read requested.2 in
  let second := Wire.read first.2 in
  let value := Z.lor (Z.shiftl (u8 second.1) 8) (u8 first.1) in
  let failed := _initialized d = false \/ status <> 0 \/ received < 2 in
  let result := (readRegister_value d regAddr s).1 in
  (failed -> result = 0xFFFF) /\
  (~ failed -> result = value) /\
  (result = 0xFFFF -> failed \/ value = 0xFFFF).
Proof.
  cbv zeta. rewrite readRegister_value_outcome. cbn [fst]. unfold read_outcome.
  destruct (_initialized d).
  - destruct (Wire.write regAddr _) as [n2 w2]. cbn [fst snd].
    destruct (Wire.endTransmission false w2) as [st w3]. cbn [fst snd].
    destruct (Z.eqb_spec st 0) as [-> | Hst].
    + destruct (Wire.requestFrom (_address d) 2 w3) as [got w4]. cbn [fst snd].
      destruct (Z.ltb_spec got 2) as [Hlt | Hge].
      * cbn. intuition.
      * destruct (Wire.read w4) as [b1 w5]. cbn [fst snd].
        destruct (Wire.read w5) as [b2 w6]. cbn [fst snd sentinel_of].
        split; [| split].
        -- intros [Hf | [Hf | Hf]]; [discriminate | contradiction | lia].
        -- reflexivity.
        -- auto.
    + cbn. intuition.
  - cbn. intuition.
Qed.

(** The loop of the bulk read, from index [i] on with [n] rounds to go. *)
Lemma readMultiple_loop_spec n : forall d startAddr b i sc (s : machine W),
  0 <= i -> i + Z.of_nat n <= 255 ->
  0 <= sc -> sc + Z.of_nat n <= 255 ->
  let reads := read_each n d startAddr i (wire s) in
  let run := readMultiple_loop n d startAddr b i sc s in
  length reads.1 = n /\
  wire run.2 = reads.2 /\
  run.1 = sc + count_succeeded reads.1 /\
  (forall (k : nat) r, reads.1 !! k = Some r ->
     mem run.2 !! index b (i + Z.of_nat k) = Some (sentinel_of r)) /\
  (forall l, ~ (b + i <= l < b + i + Z.of_nat n) -> mem run.2 !! l = mem s !! l).
Proof.
  induction n as [| n IH]; intros d startAddr b i sc s Hi Hin Hsc Hscn; cbv zeta.
  - cbn. unfold count_succeeded. cbn. repeat split; try lia.
    intros k r Hk. discriminate.
  - destruct (read_outcome d (u8 (startAddr + i)) (wire s)) as [r w1] eqn:Hr.
    set (s1 := Machine w1 (<[index b i := sentinel_of r]> (mem s))).
    set (sc1 := sc + (if succeeded r then 1 else 0)).
    assert (Hstep : readMultiple_loop (S n) d startAddr b i sc s
                    = readMultiple_loop n d startAddr b (i + 1) sc1 s1).
    { cbn [readMultiple_loop]. unfold bind at 1.
      rewrite readRegister_outcome. cbv zeta. rewrite Hr. cbn [fst snd].
      rewrite (u8_id (i + 1)) by (unfold is_u8; lia).
      unfold sc1, s1. destruct r as [e | v]; cbn.
      - rewrite Z.add_0_r. reflexivity.
      - rewrite (u8_id (sc + 1)) by (unfold is_u8; lia). reflexivity. }
    specialize (IH d startAddr b (i + 1) sc1 s1).
    cbv zeta in IH. cbn [wire s1] in IH.
    destruct (read_each n d startAddr (i + 1) w1) as [rs w2] eqn:Hrs.
    assert (Heach : read_each (S n) d startAddr i (wire s) = (r :: rs, w2)).
    { cbn [read_each]. rewrite Hr, Hrs. reflexivity. }
    rewrite Hstep, Heach. cbn [fst snd] in *.
    assert (Hsc1 : sc <= sc1 <= sc + 1) by (unfold sc1; destruct (succeeded r); lia).
    destruct IH as (Hlen & Hw & Hc & Hslots & Hframe); [lia | lia | lia | lia |].
    split; [cbn; lia |]. split; [exact Hw |]. split.
    + rewrite Hc. unfold sc1, count_succeeded.
      destruct r as [e | v]; cbn [succeeded].
      * rewrite filter_cons_False by (cbn; discriminate). lia.
      * rewrite filter_cons_True by reflexivity. cbn [length]. lia.
    + split.
      * intros [| k] r' Hk.
        -- cbn in Hk. injection Hk as <-. rewrite Z.add_0_r.
           rewrite Hframe by (unfold index; lia).
           unfold s1. cbn [mem]. apply lookup_insert_eq.
        -- cbn in Hk. specialize (Hslots k r' Hk).
           replace (i + Z.of_nat (S k)) with (i + 1 + Z.of_nat k) by lia.
           exact Hslots.
      * intros l Hl. rewrite Hframe by lia.
        unfold s1. cbn [mem]. apply lookup_insert_ne. unfold index. lia.
Qed.

(** C6, as amended: on an initialized driver, for every start address,
    every count (an 8-bit number) and every buffer that is not null,
    [readMultipleRegisters] makes [count] single-register reads, one after
    the other, at the addresses [startAddr], [startAddr + 1], ... taken
    modulo 256; a read that fails does not stop the ones after it; slot [i]
    of the buffer receives the value of read [i] if it succeeded and 0xFFFF
    if it failed, no other cell changes, and the result is the number of
    reads that succeeded. *)
Theorem readMultipleRegisters_bulk d startAddr b count (s : machine W) :
  _initialized d = true ->
  is_u8 count ->
  bulk_read_performed d startAddr (Some b) count s.
Proof.
  intros Hi Hc. unfold is_u8 in Hc. unfold bulk_read_performed. cbv zeta.
  unfold readMultipleRegisters. rewrite Hi. cbn [negb orb is_null].
  destruct (Z.eqb_spec count 0) as [-> | Hnz].
  - cbn. unfold count_succeeded. cbn. repeat split.
    intros i r Hk. discriminate.
  - pose proof (readMultiple_loop_spec (Z.to_nat count) d startAddr b 0 0 s) as L.
    cbv zeta in L.
    destruct L as (Hlen & Hw & Hn & Hslots & Hframe); try lia.
    split; [exact Hlen |]. split; [exact Hw |]. split; [rewrite Hn; lia |].
    intros b' [= <-]. split.
    + intros i r Hk. apply (Hslots i r Hk).
    + intros l Hl. apply Hframe. lia.
Qed.

End Bounded_transport.

(** ** The calls seen by a recording transport *)

Section Recorded.
Context {W : Type} `{Wire.TwoWire W}.

(** Every call on the recording transport leaves one more entry in the
    log, so a run that returns the log it was given made no call. *)
Lemma every_call_recorded (l : Logged W) sda scl f a b stop n :
  Forall (fun l' : Logged W => length (log l') = S (length (log l)))
    [ Wire.begin l; Wire.begin_pins sda scl l; Wire.setClock f l;
      Wire.beginTransmission a l; (Wire.write b l).2;
      (Wire.endTransmission stop l).2; (Wire.requestFrom a n l).2;
      (Wire.read l).2 ].
Proof.
  cbn. unfold record_call, record_step.
  destruct (Wire.write b (inner l)), (Wire.endTransmission stop (inner l)),
    (Wire.requestFrom a n (inner l)), (Wire.read (inner l)).
  repeat (apply Forall_cons; split;
          [cbn; rewrite length_app; cbn; lia |]).
  apply Forall_nil. exact I.
Qed.

(** C2: on an initialized driver, [writeRegister addr v] makes one
    transmission to the device address: [beginTransmission], then the three
    bytes [addr], [v & 0xFF], [(v >> 8) & 0xFF] in this order, then
    [endTransmission] with the stop condition; it makes no other call, and
    it returns true exactly when the status of that transmission is 0. *)
Theorem writeRegister_transmits d regAddr v (s : machine (Logged W)) :
  _initialized d = true ->
  exists status,
    (writeRegister d regAddr v s).1 = (status =? 0) /\
    log (wire (writeRegister d regAddr v s).2) =
      log (wire s) ++
      [EvBeginTransmission (_address d);
       EvWrite regAddr;
       EvWrite (Z.land v 0xFF);
       EvWrite (Z.land (Z.shiftr v 8) 0xFF);
       EvEndTransmission true status] /\
    mem (writeRegister d regAddr v s).2 = mem s.
Proof.
  intros Hi. unfold writeRegister, bind, on_wire, call_wire, ret.
  rewrite Hi. cbn. unfold record_call, record_step. cbn.
  destruct (Wire.write regAddr _) as [n1 w1]. cbn.
  destruct (Wire.write (Z.land v 255) w1) as [n2 w2]. cbn.
  destruct (Wire.write (Z.land (Z.shiftr v 8) 255) w2) as [n3 w3]. cbn.
  destruct (Wire.endTransmission true w3) as [st w4]. cbn.
  exists st. rewrite <- !app_assoc. cbn. auto.
Qed.

(** C3: when [readRegister addr] succeeds, the calls it made are the
    address phase (the register address written, the bus held), one request
    for exactly 2 bytes from the device address, answered with 2, and two
    reads; with [firstByte] and [secondByte] the bytes read, in this order,
    the value stored through the pointer, and returned by the convenience
    form, is [(secondByte << 8) | firstByte]. *)
Theorem readRegister_success d regAddr p (s : machine (Logged W)) :
  (readRegister d regAddr (Some p) s).1 = true ->
  exists firstByte secondByte,
    let value := Z.lor (Z.shiftl (u8 secondByte) 8) (u8 firstByte) in
    log (wire (readRegister d regAddr (Some p) s).2) =
      log (wire s) ++
      [EvBeginTransmission (_address d);
       EvWrite regAddr;
       EvEndTransmission false 0;
       EvRequestFrom (_address d) 2 2;
       EvRead firstByte;
       EvRead secondByte] /\
    mem (readRegister d regAddr (Some p) s).2 = <[p := value]> (mem s) /\
    readRegister_value d regAddr s =
      (value, Machine (wire (readRegister d regAddr (Some p) s).2) (mem s)).
Proof.
  intros Hs.
  assert (Hi : _initialized d = true).
  { destruct (_initialized d) eqn:E; [reflexivity |].
    rewrite readRegister_guard in Hs by (rewrite E; reflexivity). discriminate. }
  revert Hs. unfold readRegister_value, bind, alloca.
  rewrite !readRegister_run by exact Hi. cbv zeta.
  cbn. unfold record_call, record_step. cbn.
  destruct (Wire.write regAddr _) as [n1 w1]. cbn.
  destruct (Wire.endTransmission false w1) as [st w2]. cbn.
  destruct (Z.eqb_spec st 0) as [-> | _]; [| discriminate].
  destruct (Wire.requestFrom (_address d) 2 w2) as [got w3]. cbn.
  destruct (Z.eqb_spec got 2) as [-> | _]; [| discriminate].
  destruct (Wire.read w3) as [b1 w4]. cbn.
  destruct (Wire.read w4) as [b2 w5]. cbn.
  intros _. exists b1, b2. rewrite <- !app_assoc. cbn.
  rewrite lookup_insert_eq, release_store_fresh. auto.
Qed.

End Recorded.

(** ** The driver against the simulated device *)

#[global] Instance device_Bounded : Wire.Bounded Fake.device.
Proof.
  intros a n dv Hn. cbn. unfold Fake.requestFrom. cbn [fst].
  destruct (_ && _).
  - destruct (default (0, 0) _) as [lo hi]. rewrite length_take. cbn [length]. lia.
  - cbn. lia.
Qed.

#[global] Instance Logged_Bounded {W : Type} `{Wire.Bounded W} : Wire.Bounded (Logged W).
Proof.
  intros a n l Hn. cbn. unfold record_call.
  pose proof (Wire.requestFrom_le a n (inner l) Hn) as Hle.
  destruct (Wire.requestFrom a n (inner l)) as [got w]. exact Hle.
Qed.

(** C4: against the device that sends back the bytes last written to a
    register, on an initialized driver bound to the address the device
    answers, writing a 16-bit value [v] to a register and reading the same
    register gives [v] back; on the wire the low byte goes before the high
    byte in the write and comes before it in the read. *)
Theorem write_then_read_roundtrip d regAddr v (s : machine (Logged Fake.device)) :
  _initialized d = true ->
  Fake.dev_address (inner (wire s)) = _address d ->
  regAddr ∉ Fake.mute (inner (wire s)) ->
  is_u8 regAddr ->
  is_u16 v ->
  let lo := Z.land v 0xFF in
  let hi := Z.land (Z.shiftr v 8) 0xFF in
  let written := writeRegister d regAddr v s in
  let readback := readRegister_value d regAddr written.2 in
  written.1 = true /\
  readback.1 = v /\
  log (wire readback.2) =
    log (wire s) ++
    [EvBeginTransmission (_address d); EvWrite regAddr; EvWrite lo; EvWrite hi;
     EvEndTransmission true 0;
     EvBeginTransmission (_address d); EvWrite regAddr;
     EvEndTransmission false 0;
     EvRequestFrom (_address d) 2 2; EvRead lo; EvRead hi].
Proof.
  intros Hi Ha Hm Hr Hv. destruct s as [[dv l] m].
  destruct dv as [da rg mu tg tx pt rx]. cbn in Ha, Hm. subst da. cbv zeta.
  unfold readRegister_value, bind, alloca. rewrite readRegister_run by exact Hi.
  unfold writeRegister, bind, on_wire, call_wire, ret. rewrite Hi.
  cbn. unfold record_call, record_step. cbn.
  unfold Fake.endTransmission. cbn. rewrite !Z.eqb_refl. cbn.
  rewrite (u8_id regAddr Hr).
  rewrite (bool_decide_eq_false_2 _ Hm), lookup_insert_eq.
  change (Z.to_nat 2) with 2%nat. cbn.
  change (Z.of_nat 2) with 2. cbn. unfold load. cbn.
  rewrite lookup_insert_eq.
  rewrite !(u8_id (u8 _)) by apply u8_range.
  rewrite split_combine by exact Hv.
  rewrite <- !app_assoc. cbn.
  rewrite !(u8_id (Z.land _ 255)) by (rewrite land_255; unfold is_u8; apply Z.mod_pos_bound; lia).
  auto.
Qed.

(** C7: [setAddress] stores the new address and clears [_initialized],
    whatever the flag was and whether or not the address is the one already
    stored; afterwards [getAddress] gives the new address and the driver is
    uninitialized. *)
Theorem setAddress_invalidates d newAddress :
  getAddress (setAddress newAddress d) = newAddress /\
  isInitialized (setAddress newAddress d) = false /\
  _address (setAddress (_address d) d) = _address d /\
  _initialized (setAddress (_address d) d) = false.
Proof. repeat split. Qed.

(** ** The register names *)

(** C8: [getRegisterName] is a function of the address alone.  The 25
    addresses of the documented catalog are those the header defines; at each
    of them it returns the name of that register, which is neither empty nor
    the token "UNKNOWN"; at every address outside the catalog it returns
    "UNKNOWN".  At the ends of the 8-bit range: 0x00 is in the catalog and
    gives "CHARGE_OPTION_0", 0xFF is not and gives "UNKNOWN". *)
Theorem getRegisterName_total :
  map fst register_names = catalog /\
  length catalog = 25%nat /\
  Forall (fun entry => getRegisterName entry.1 = entry.2 /\
                       entry.2 <> ""%string /\ entry.2 <> UNKNOWN)
         register_names /\
  (forall regAddr, regAddr ∉ catalog -> getRegisterName regAddr = UNKNOWN) /\
  getRegisterName 0x00 = "CHARGE_OPTION_0"%string /\
  getRegisterName 0xFF = UNKNOWN.
Proof.
  split; [reflexivity |]. split; [reflexivity |]. split.
  - unfold register_names.
    repeat (apply Forall_cons; split;
            [split; [reflexivity | split; discriminate] |]).
    apply Forall_nil. exact I.
  - split; [| split; reflexivity].
    intros regAddr Hout. unfold getRegisterName.
    repeat match goal with
    | |- context [regAddr =? ?c] =>
      destruct (Z.eqb_spec regAddr c) as [-> | _];
      [exfalso; apply Hout, list_elem_of_In; vm_compute; tauto |]
    end.
    reflexivity.
Qed.

(** ** Runs on the test bench *)

(** The probe of [begin] passes on the bench and yields the driver the
    runs below use. *)
Lemma begin_on_bench :
  (begin Bench.unprobed 21 22 Bench.bench).1 = (true, Bench.charger).
Proof. vm_compute. reflexivity. Qed.

Lemma readRegister_failure_keeps_memory_witness :
  (readRegister Bench.charger 0x04 (Some 10) Bench.bench).1 = false /\
  mem (readRegister Bench.charger 0x04 (Some 10) Bench.bench).2 !! 10 = Some 0x1234.
Proof.
  assert (Hf : (readRegister Bench.charger 0x04 (Some 10) Bench.bench).1 = false)
    by (vm_compute; reflexivity).
  split; [exact Hf |].
  pose proof (readRegister_failure_keeps_memory
                Bench.charger 0x04 (Some 10) Bench.bench Hf) as [_ Hp].
  rewrite (Hp 10 eq_refl). vm_compute. reflexivity.
Defined.

Lemma uninitialized_no_io_witness :
  _initialized Bench.unprobed = false /\
  readRegister Bench.unprobed 0x2F (Some 10) Bench.bench = (false, Bench.bench) /\
  readRegister_value Bench.unprobed 0x2F Bench.bench = (0xFFFF, Bench.bench) /\
  writeRegister Bench.unprobed 0x2F 0x1770 Bench.bench = (false, Bench.bench) /\
  readMultipleRegisters Bench.unprobed 0x00 (Some 10) 3 Bench.bench = (0, Bench.bench).
Proof.
  split; [reflexivity |].
  apply (uninitialized_no_io Bench.unprobed). reflexivity.
Defined.

Lemma writeRegister_transmits_witness :
  _initialized Bench.charger = true /\
  log (wire (writeRegister Bench.charger 0x02 0x1770 Bench.bench).2) =
    [EvBeginTransmission 0x6B; EvWrite 0x02; EvWrite 0x70; EvWrite 0x17;
     EvEndTransmission true 0].
Proof.
  split; [reflexivity |].
  destruct (writeRegister_transmits Bench.charger 0x02 0x1770 Bench.bench eq_refl)
    as (status & Hret & Hlog & _).
  rewrite Hlog.
  assert (Hst : status = 0).
  { apply Z.eqb_eq. rewrite <- Hret. vm_compute. reflexivity. }
  rewrite Hst. reflexivity.
Defined.

Lemma readRegister_success_witness :
  (readRegister Bench.charger 0x2F (Some 10) Bench.bench).1 = true /\
  (readRegister_value Bench.charger 0x2F Bench.bench).1 = 0x0023.
Proof.
  assert (Hs : (readRegister Bench.charger 0x2F (Some 10) Bench.bench).1 = true)
    by (vm_compute; reflexivity).
  split; [exact Hs |].
  destruct (readRegister_success Bench.charger 0x2F 10 Bench.bench Hs)
    as (b1 & b2 & Hlog & _ & Hval).
  rewrite Hval. cbn [fst].
  assert (Hb : [EvRead b1; EvRead b2] = [EvRead 0x23; EvRead 0x00]).
  { apply (f_equal (drop 4)) in Hlog. cbn in Hlog. rewrite <- Hlog.
    vm_compute. reflexivity. }
  injection Hb as -> ->. reflexivity.
Defined.

Lemma write_then_read_roundtrip_witness :
  let written := writeRegister Bench.charger 0x3E 0xBEEF Bench.bench in
  (readRegister_value Bench.charger 0x3E written.2).1 = 0xBEEF.
Proof.
  cbv zeta.
  apply (write_then_read_roundtrip Bench.charger 0x3E 0xBEEF Bench.bench).
  - reflexivity.
  - reflexivity.
  - vm_compute. discriminate.
  - unfold is_u8. lia.
  - unfold is_u16. lia.
Defined.

Lemma readRegister_value_sentinel_witness :
  (readRegister_value Bench.charger 0x04 Bench.bench).1 = 0xFFFF /\
  (readRegister_value Bench.charger 0x06 Bench.bench).1 = 0x1234.
Proof.
  split.
  - destruct (readRegister_value_sentinel Bench.charger 0x04 Bench.bench)
      as (Hfail & _ & _).
    apply Hfail. right. right. vm_compute. reflexivity.
  - destruct (readRegister_value_sentinel Bench.charger 0x06 Bench.bench)
      as (_ & Hok & _).
    rewrite Hok; [vm_compute; reflexivity |].
    intros [Hf | [Hf | Hf]]; vm_compute in Hf; [discriminate | | discriminate].
    apply Hf. reflexivity.
Defined.

(** Registers 0x02 to 0x06 into cells 10 to 14: register 0x04 does not
    answer, the reads after it are made all the same. *)
Lemma readMultipleRegisters_bulk_witness :
  let run := readMultipleRegisters Bench.charger 0x02 (Some 10) 5 Bench.bench in
  _initialized Bench.charger = true /\
  is_u8 5 /\
  bulk_read_performed Bench.charger 0x02 (Some 10) 5 Bench.bench /\
  run.1 = 4 /\
  map (fun l => mem run.2 !! l) [10; 11; 12; 13; 14] =
    [Some 0x1770; Some 0; Some 0xFFFF; Some 0; Some 0x1234].
Proof.
  cbv zeta. split; [reflexivity |]. split; [unfold is_u8; lia |]. split.
  - apply readMultipleRegisters_bulk; [reflexivity | unfold is_u8; lia].
  - split; vm_compute; reflexivity.
Defined.

(** A null buffer on an initialized driver.  One read was asked for and, on
    this bench, it succeeds; [readMultipleRegisters] makes no call and returns
    0, so it has not performed the read. *)
Lemma readMultipleRegisters_null_buffer :
  _initialized Bench.charger = true /\
  (read_each 1 Bench.charger 0x2F 0 (wire Bench.bench)).1 = [inr 0x0023] /\
  readMultipleRegisters Bench.charger 0x2F nullptr 1 Bench.bench
    = (0, Bench.bench) /\
  ~ bulk_read_performed Bench.charger 0x2F nullptr 1 Bench.bench.
Proof.
  split; [reflexivity |]. split; [vm_compute; reflexivity |].
  split; [reflexivity |].
  intros (_ & _ & Hn & _). vm_compute in Hn. discriminate Hn.
Qed.

(** * Further properties of the driver *)

(** ** The gate, the probe and the address *)

Section Gate.
Context {W : Type} `{Wire.TwoWire W}.

(** With the flag down, every register operation gives up at its guard. *)
Lemma gate_closed d regAddr value v startAddr buffer count (s : machine W) :
  _initialized d = false ->
  readRegister d regAddr value s = (false, s) /\
  readRegister_value d regAddr s = (0xFFFF, s) /\
  writeRegister d regAddr v s = (false, s) /\
  readMultipleRegisters d startAddr buffer count s = (0, s).
Proof.
  intros Hi.
  assert (Hg : forall p, negb (_initialized d) || is_null p = true)
    by (intros p; rewrite Hi; reflexivity).
  repeat split.
  - apply readRegister_guard, Hg.
  - unfold readRegister_value, bind, alloca.
    rewrite readRegister_guard by apply Hg.
    cbn. rewrite release_fresh, machine_eta. reflexivity.
  - unfold writeRegister. rewrite Hi. reflexivity.
  - unfold readMultipleRegisters. rewrite Hi. reflexivity.
Qed.

(** [begin] configures the transport, probes, and sets the flag to what the
    probe found. *)
Lemma begin_run d sdaPin sclPin (s : machine W) :
  begin d sdaPin sclPin s =
    let w0 := if (sdaPin >=? 0) && (sclPin >=? 0)
              then Wire.begin_pins sdaPin sclPin (wire s)
              else Wire.begin (wire s) in
    let w1 := Wire.setClock (_i2cSpeed d) w0 in
    let r := Wire.endTransmission true (Wire.beginTransmission (_address d) w1) in
    ((r.1 =? 0, set_initialized (r.1 =? 0) d), Machine r.2 (mem s)).
Proof.
  unfold begin, isConnected, checkCommunication, bind, on_wire, call_wire, ret.
  cbv zeta. destruct ((sdaPin >=? 0) && (sclPin >=? 0)); cbn;
    destruct (Wire.endTransmission true _) as [st w2]; cbn;
    destruct (st =? 0); reflexivity.
Qed.

(** The driver that [begin] leaves has its flag equal to the result [begin]
    returned, whatever the flag was before, and the address and the clock
    speed it was constructed with; [begin] does not touch data memory. *)
Lemma begin_sets_flag d sdaPin sclPin (s : machine W) :
  let run := begin d sdaPin sclPin s in
  _initialized run.1.2 = run.1.1 /\
  _address run.1.2 = _address d /\
  _i2cSpeed run.1.2 = _i2cSpeed d /\
  mem run.2 = mem s.
Proof. cbv zeta. rewrite begin_run. cbn. auto. Qed.

(** X3: when [begin] returns false, every register operation on the driver
    it leaves returns its failure value and hands back the machine as
    [begin] left it: the transport is not called again. *)
Theorem failed_begin_blocks d sdaPin sclPin regAddr value v startAddr buffer
    count (s : machine W) :
  (begin d sdaPin sclPin s).1.1 = false ->
  let d' := (begin d sdaPin sclPin s).1.2 in
  let s' := (begin d sdaPin sclPin s).2 in
  readRegister d' regAddr value s' = (false, s') /\
  readRegister_value d' regAddr s' = (0xFFFF, s') /\
  writeRegister d' regAddr v s' = (false, s') /\
  readMultipleRegisters d' startAddr buffer count s' = (0, s').
Proof.
  intros Hf. cbv zeta. apply gate_closed.
  revert Hf. rewrite begin_run. cbn. auto.
Qed.

(** X4: after [setAddress], on a driver in any state and with any address,
    the one already stored included, every register operation returns its
    failure value and leaves the machine unchanged, until [begin] is called
    again. *)
Theorem setAddress_blocks d newAddress regAddr value v startAddr buffer count
    (s : machine W) :
  let d' := setAddress newAddress d in
  readRegister d' regAddr value s = (false, s) /\
  readRegister_value d' regAddr s = (0xFFFF, s) /\
  writeRegister d' regAddr v s = (false, s) /\
  readMultipleRegisters d' startAddr buffer count s = (0, s).
Proof. cbv zeta. apply gate_closed. reflexivity. Qed.

(** With a null buffer or a count of 0, [readMultipleRegisters] returns 0
    and leaves the machine unchanged, also on an initialized driver. *)
Lemma readMultipleRegisters_nothing_to_do d startAddr buffer count
    (s : machine W) :
  buffer = nullptr \/ count = 0 ->
  readMultipleRegisters d startAddr buffer count s = (0, s).
Proof.
  intros [-> | ->]; unfold readMultipleRegisters; cbn [nullptr is_null].
  - rewrite orb_true_r. reflexivity.
  - rewrite orb_true_r. reflexivity.
Qed.

(** What [readRegister] leaves in the cell it was given, when it succeeds,
    is a 16-bit value. *)
Lemma readRegister_stores_u16 d regAddr p (s : machine W) :
  (readRegister d regAddr (Some p) s).1 = true ->
  exists v, mem (readRegister d regAddr (Some p) s).2 !! p = Some v /\ is_u16 v.
Proof.
  destruct (_initialized d) eqn:Hi.
  - rewrite readRegister_run by exact Hi. cbv zeta.
    destruct (_ =? 0); [| discriminate].
    destruct (_ =? 2); [| discriminate].
    intros _. cbn. eexists. split; [apply lookup_insert_eq | apply combine_is_u16].
  - rewrite readRegister_guard by (rewrite Hi; reflexivity). discriminate.
Qed.


(** X8: whatever the transport answers, also when [read] gives -1 or a
    number above 255, the value [readRegister] stores on success and the
    value the convenience form returns are 16-bit values. *)
Theorem readRegister_value_in_range d regAddr (s : machine W) :
  is_u16 (readRegister_value d regAddr s).1 /\
  forall p, (readRegister d regAddr (Some p) s).1 = true ->
    exists v, mem (readRegister d regAddr (Some p) s).2 !! p = Some v /\
              is_u16 v.
Proof.
  split; [| intros p; apply readRegister_stores_u16].
  unfold readRegister_value, bind, alloca.
  pose proof (readRegister_stores_u16 d regAddr (fresh (dom (mem s))) s) as Hs.
  destruct (readRegister d regAddr (Some (fresh (dom (mem s)))) s) as [[|] s1].
  - destruct (Hs eq_refl) as (v & Hv & Hr). cbn in *. rewrite Hv. exact Hr.
  - cbn. unfold is_u16. lia.
Qed.

End Gate.

(** ** What the recording transport sees *)

Section Traces.
Context {W : Type} `{Wire.TwoWire W}.



(** A read past the guard, seen through the recorder: the same result and
    the same memory as without it, and [read_events] more in the log. *)
Lemma readRegister_logged d regAddr p (w : W) l m :
  _initialized d = true ->
  readRegister d regAddr (Some p) (Machine (mkLogged w l) m) =
    let r := readRegister d regAddr (Some p) (Machine w m) in
    (r.1, Machine (mkLogged (wire r.2) (l ++ read_events d regAddr w)) (mem r.2)).
Proof.
  intros Hi. rewrite !readRegister_run by exact Hi. unfold read_events.
  cbv zeta. cbn. unfold record_call, record_step. cbn.
  destruct (Wire.write regAddr _) as [n1 w1]. cbn.
  destruct (Wire.endTransmission false w1) as [st w2]. cbn.
  destruct (st =? 0); cbn; [| rewrite <- !app_assoc; reflexivity].
  destruct (Wire.requestFrom (_address d) 2 w2) as [got w3]. cbn.
  destruct (got =? 2); cbn; [| rewrite <- !app_assoc; reflexivity].
  destruct (Wire.read w3) as [b1 w4]. cbn.
  destruct (Wire.read w4) as [b2 w5]. cbn.
  rewrite <- !app_assoc. reflexivity.
Qed.


(** X1: [begin] makes four calls: [begin] with the two pins when both are
    given (not negative) and without pins otherwise, [setClock] with the
    speed of the constructor, and an empty transmission to the device
    address closed with a stop.  It returns true exactly when the status of
    that transmission is 0, and the flag of the driver it leaves is that
    result, whatever it was before. *)
Theorem begin_probe d sdaPin sclPin (s : machine (Logged W)) :
  exists status,
    (begin d sdaPin sclPin s).1 =
      (status =? 0, mkBQ25723 (_address d) (_i2cSpeed d) (status =? 0)) /\
    log (wire (begin d sdaPin sclPin s).2) =
      log (wire s) ++
      [if (sdaPin >=? 0) && (sclPin >=? 0)
       then EvBeginPins sdaPin sclPin else EvBegin;
       EvSetClock (_i2cSpeed d);
       EvBeginTransmission (_address d);
       EvEndTransmission true status] /\
    mem (begin d sdaPin sclPin s).2 = mem s.
Proof.
  rewrite begin_run. cbv zeta. cbn. unfold record_call, record_step.
  destruct ((sdaPin >=? 0) && (sclPin >=? 0)); cbn;
    destruct (Wire.endTransmission true _) as [st w1]; cbn;
    exists st; rewrite <- !app_assoc; auto.
Qed.

(** X2: [isConnected] does not look at the flag: on an uninitialized driver
    too it makes one empty transmission to the device address, closed with
    a stop, and returns true exactly when its status is 0; it writes
    nothing and reads nothing. *)
Theorem isConnected_probe d flag (s : machine (Logged W)) :
  exists status,
    (isConnected (set_initialized flag d) s).1 = (status =? 0) /\
    log (wire (isConnected (set_initialized flag d) s).2) =
      log (wire s) ++
      [EvBeginTransmission (_address d); EvEndTransmission true status] /\
    mem (isConnected (set_initialized flag d) s).2 = mem s.
Proof.
  unfold isConnected, checkCommunication, bind, on_wire, call_wire, ret.
  cbn. unfold record_call, record_step. cbn.
  destruct (Wire.endTransmission true _) as [st w1]. cbn.
  exists st. rewrite <- !app_assoc. auto.
Qed.

(** X5: a read that fails past the guard stops at the step that failed.
    If the address phase is not acknowledged, the transmission of the
    register address is all that happened: no byte is requested.  If the
    request does not deliver 2 bytes, none is read. *)
Theorem readRegister_stops_at_failure d regAddr p (s : machine (Logged W)) :
  _initialized d = true ->
  (readRegister d regAddr (Some p) s).1 = false ->
  (exists status, status <> 0 /\
     log (wire (readRegister d regAddr (Some p) s).2) =
       log (wire s) ++
       [EvBeginTransmission (_address d); EvWrite regAddr;
        EvEndTransmission false status]) \/
  (exists received, received <> 2 /\
     log (wire (readRegister d regAddr (Some p) s).2) =
       log (wire s) ++
       [EvBeginTransmission (_address d); EvWrite regAddr;
        EvEndTransmission false 0;
        EvRequestFrom (_address d) 2 received]).
Proof.
  intros Hi. destruct s as [[w l] m].
  rewrite readRegister_logged by exact Hi. cbv zeta. cbn [fst snd wire log].
  rewrite readRegister_run by exact Hi. unfold read_events. cbv zeta.
  cbn [wire mem].
  destruct (Z.eqb_spec (Wire.endTransmission false
             (Wire.write regAddr (Wire.beginTransmission (_address d) w)).2).1 0)
    as [Hst | Hst].
  - rewrite Hst.
    destruct (Z.eqb_spec (Wire.requestFrom (_address d) 2
               (Wire.endTransmission false
                 (Wire.write regAddr (Wire.beginTransmission (_address d) w)).2).2).1 2)
      as [Hgot | Hgot]; [discriminate |].
    intros _. right. eexists. split; [exact Hgot | reflexivity].
  - intros _. left. eexists. split; [exact Hst | reflexivity].
Qed.

End Traces.

(** ** The bulk read *)

Section Bulk_trace.
Context {W : Type} `{Wire.TwoWire W}.



End Bulk_trace.

Lemma count_succeeded_bounds (rs : list (read_error + Z)) :
  0 <= count_succeeded rs <= Z.of_nat (length rs) /\
  (count_succeeded rs = Z.of_nat (length rs) <->
   Forall (fun r => succeeded r = true) rs).
Proof.
  unfold count_succeeded. induction rs as [| r rs [IHb IHe]].
  - cbn. split; [lia |]. split; [constructor | reflexivity].
  - destruct r as [e | v]; cbn [succeeded].
    + rewrite filter_cons_False by (cbn; discriminate). cbn [length].
      split; [lia |]. split; [lia |].
      intros Hall. apply Forall_cons in Hall as [Hhd _]. discriminate Hhd.
    + rewrite filter_cons_True by reflexivity. cbn [length].
      split; [lia |]. split.
      * intros Heq. apply Forall_cons. split; [reflexivity |]. apply IHe. lia.
      * intros Hall. apply Forall_cons in Hall as [_ Htl].
        apply IHe in Htl. lia.
Qed.

Section Bulk_count.
Context {W : Type} `{Wire.Bounded W}.

(** X6: the result of the bulk read on an initialized driver lies between 0
    and [count], and it is [count] exactly when every one of the reads
    succeeded. *)
Theorem readMultipleRegisters_count_bounds d startAddr b count (s : machine W) :
  _initialized d = true ->
  is_u8 count ->
  let result := (readMultipleRegisters d startAddr (Some b) count s).1 in
  let reads := (read_each (Z.to_nat count) d startAddr 0 (wire s)).1 in
  0 <= result <= count /\
  (result = count <-> Forall (fun r => succeeded r = true) reads).
Proof.
  intros Hd Hc. unfold is_u8 in Hc. cbv zeta.
  unfold readMultipleRegisters. rewrite Hd. cbn [negb orb is_null].
  destruct (Z.eqb_spec count 0) as [-> | Hnz].
  - cbn. split; [lia |]. split; [constructor | reflexivity].
  - pose proof (readMultiple_loop_spec (Z.to_nat count) d startAddr b 0 0 s) as L.
    cbv zeta in L. destruct L as (Hlen & _ & Hn & _); try lia.
    pose proof (count_succeeded_bounds
                  (read_each (Z.to_nat count) d startAddr 0 (wire s)).1)
      as [Hb He].
    rewrite Hlen in Hb, He. rewrite Z2Nat.id in Hb, He by lia.
    rewrite Hn, Z.add_0_l. split; [exact Hb | exact He].
Qed.

End Bulk_count.

(** ** Register names *)

Lemma catalog_cases a :
  a ∈ catalog ->
  Exists (fun c => a = c) catalog.
Proof.
  intros Ha. apply Exists_exists. exists a. split; [exact Ha | reflexivity].
Qed.

Ltac each_register H :=
  apply catalog_cases in H; vm_compute in H;
  repeat (apply Exists_cons in H as [H | H]; [subst |]);
  [.. | apply Exists_nil in H; contradiction].

(** X9: the token "UNKNOWN" is returned exactly for the addresses outside
    the catalog, and two different addresses of the catalog never get the
    same name: a name printed by a dump identifies its register. *)
Theorem getRegisterName_identifies a b :
  (getRegisterName a = UNKNOWN <-> a ∉ catalog) /\
  (a ∈ catalog -> getRegisterName a = getRegisterName b -> a = b).
Proof.
  split; [split |].
  - intros Hname Hin. each_register Hin; discriminate Hname.
  - intros Hout. unfold getRegisterName.
    repeat match goal with
    | |- context [a =? ?c] =>
      destruct (Z.eqb_spec a c) as [-> | _];
      [exfalso; apply Hout, list_elem_of_In; vm_compute; tauto |]
    end.
    reflexivity.
  - intros Hin Hname. each_register Hin;
      revert Hname; unfold getRegisterName at 2;
      repeat match goal with
      | |- context [b =? ?c] =>
        destruct (Z.eqb_spec b c) as [-> | _];
        [first [reflexivity | discriminate] |]
      end;
      discriminate.
Qed.

(** * Properties of the sketch *)

(** ** The driver on a board *)

Section On_board.
Context {W : Type} `{Wire.TwoWire W}.



Lemma begin_on_board c d sdaPin sclPin (s : machine W) :
  begin d sdaPin sclPin (on_board c s) =
    let r := begin d sdaPin sclPin s in (r.1, on_board c r.2).
Proof.
  rewrite !begin_run. cbv zeta. unfold on_board. cbn. unfold bus_call, bus_step.
  destruct ((sdaPin >=? 0) && (sclPin >=? 0)); cbn;
    destruct (Wire.endTransmission true _) as [st w1]; reflexivity.
Qed.


(** [begin], seen through the recorder. *)
Lemma begin_logged d sdaPin sclPin (w : W) l m :
  exists status,
    begin d sdaPin sclPin (Machine (mkLogged w l) m) =
      ((status =? 0, set_initialized (status =? 0) d),
       Machine (mkLogged (wire (begin d sdaPin sclPin (Machine w m)).2)
                  (l ++ [if (sdaPin >=? 0) && (sclPin >=? 0)
                         then EvBeginPins sdaPin sclPin else EvBegin;
                         EvSetClock (_i2cSpeed d);
                         EvBeginTransmission (_address d);
                         EvEndTransmission true status]))
               m).
Proof.
  rewrite !begin_run. cbv zeta. cbn. unfold record_call, record_step.
  destruct ((sdaPin >=? 0) && (sclPin >=? 0)); cbn;
    destruct (Wire.endTransmission true _) as [st w1]; cbn;
    exists st; rewrite <- !app_assoc; reflexivity.
Qed.

End On_board.

(** ** The bus scan *)

Section Scan.
Context {W : Type} `{Wire.TwoWire W}.

Lemma report_found_run address (b : Board W) m :
  Sketch.report_found address (Machine b m) =
    (tt, Machine (mkBoard (bus b) (console b ++ found_lines address)) m).
Proof.
  unfold Sketch.report_found, found_lines, bind, serial, ret. cbn.
  destruct (address <? 16); cbn; rewrite <- !app_assoc; reflexivity.
Qed.

(** One round of the scan: an empty transmission to [address], the report
    if it was acknowledged, the pause, and on to the next address. *)
Lemma scan_loop_step n address count (w : W) c m :
  Sketch.scan_loop (S n) address count (Machine (mkBoard w c) m) =
    let r := Wire.endTransmission true (Wire.beginTransmission address w) in
    Sketch.scan_loop n (u8 (address + 1))
      (if r.1 =? 0 then u8 (count + 1) else count)
      (Machine (mkBoard r.2
                  (c ++ (if r.1 =? 0 then found_lines address else []) ++
                   [Delay 5]))
               m).
Proof.
  cbn [Sketch.scan_loop]. unfold bind at 1 2. unfold on_wire, call_wire.
  cbn. unfold bus_call, bus_step. cbn.
  destruct (Wire.endTransmission true _) as [st w1]. cbn.
  unfold bind at 1. destruct (st =? 0).
  - unfold bind at 1. rewrite report_found_run. unfold ret, bind, serial.
    cbn [wire bus console mem fst snd]. rewrite <- app_assoc. reflexivity.
  - unfold ret, bind, serial. cbn. reflexivity.
Qed.

End Scan.

Section Scan_recorded.
Context {W : Type} `{Wire.TwoWire W}.

Lemma acknowledged_cons a st probes :
  acknowledged ((a, st) :: probes) =
    if st =? 0 then a :: acknowledged probes else acknowledged probes.
Proof.
  unfold acknowledged. destruct (Z.eqb_spec st 0) as [-> | Hne].
  - rewrite filter_cons_True by reflexivity. reflexivity.
  - rewrite filter_cons_False by exact Hne. reflexivity.
Qed.

Lemma scan_loop_step_logged n address count (w : W) l c m :
  Sketch.scan_loop (S n) address count (Machine (mkBoard (mkLogged w l) c) m) =
    let r := Wire.endTransmission true (Wire.beginTransmission address w) in
    Sketch.scan_loop n (u8 (address + 1))
      (if r.1 =? 0 then u8 (count + 1) else count)
      (Machine (mkBoard
                  (mkLogged r.2
                     (l ++ [EvBeginTransmission address;
                            EvEndTransmission true r.1]))
                  (c ++ (if r.1 =? 0 then found_lines address else []) ++
                   [Delay 5]))
               m).
Proof.
  rewrite scan_loop_step. cbv zeta. cbn. unfold record_call, record_step. cbn.
  destruct (Wire.endTransmission true _) as [st w1]. cbn.
  rewrite <- app_assoc. reflexivity.
Qed.

(** The scan loop over [n] addresses from [address] on: what the bus saw,
    what was printed and what was counted, in terms of the statuses the
    probes got. *)
Lemma scan_loop_spec n : forall address count (s : machine (Board (Logged W))),
  0 <= address -> address + Z.of_nat n <= 255 ->
  0 <= count -> count + Z.of_nat n <= 255 ->
  exists statuses,
    length statuses = n /\
    let probes := zip (map (fun k => address + Z.of_nat k) (seq 0 n)) statuses in
    let run := Sketch.scan_loop n address count s in
    run.1 = count + Z.of_nat (length (acknowledged probes)) /\
    log (bus (wire run.2)) = log (bus (wire s)) ++ scan_bus probes /\
    console (wire run.2) = console (wire s) ++ scan_console probes /\
    mem run.2 = mem s.
Proof.
  induction n as [| n IH]; intros address count s Ha Han Hc Hcn.
  - exists []. cbn. rewrite !app_nil_r. split; [reflexivity |].
    repeat split. lia.
  - destruct s as [[[w l] c] m]. rewrite scan_loop_step_logged. cbv zeta.
    destruct (Wire.endTransmission true (Wire.beginTransmission address w))
      as [st w1]. cbn [fst snd].
    rewrite (u8_id (address + 1)) by (unfold is_u8; lia).
    set (count' := if st =? 0 then u8 (count + 1) else count).
    assert (Hc' : count' = count + (if st =? 0 then 1 else 0)).
    { unfold count'. destruct (st =? 0); [| lia].
      apply u8_id. unfold is_u8. lia. }
    match goal with
    | |- context [Sketch.scan_loop n (address + 1) count' ?s1] =>
      destruct (IH (address + 1) count' s1) as (sts & Hlen & Hrun);
        [lia | lia | destruct (st =? 0); lia | destruct (st =? 0); lia |]
    end.
    cbv zeta in Hrun. destruct Hrun as (Hn & Hlog & Hcon & Hmem).
    exists (st :: sts). split; [cbn; lia |].
    cbn [seq map zip zip_with]. rewrite Z.add_0_r.
    assert (Hshift : map (fun k => address + Z.of_nat k) (seq 1 n)
                     = map (fun k => address + 1 + Z.of_nat k) (seq 0 n)).
    { rewrite <- seq_shift, map_map. apply map_ext. intros k. lia. }
    rewrite Hshift.
    split; [| split; [| split]].
    + rewrite Hn, Hc', acknowledged_cons. destruct (st =? 0); cbn [length]; lia.
    + rewrite Hlog. cbn [wire bus log]. unfold scan_bus. cbn [flat_map fst snd].
      rewrite <- !app_assoc. reflexivity.
    + rewrite Hcon. cbn [wire console]. unfold scan_console.
      cbn [flat_map fst snd]. rewrite <- !app_assoc. reflexivity.
    + exact Hmem.
Qed.

(** The whole scan. *)
Lemma scanI2CBus_spec (s : machine (Board (Logged W))) :
  exists statuses,
    length statuses = 126%nat /\
    let probes := zip scan_addresses statuses in
    let run := Sketch.scanI2CBus s in
    log (bus (wire run.2)) = log (bus (wire s)) ++ scan_bus probes /\
    console (wire run.2) =
      console (wire s) ++
      [SerialPrintln "Scanning I2C bus..."%string] ++
      scan_console probes ++ scan_summary probes /\
    mem run.2 = mem s.
Proof.
  set (s1 := Machine (mkBoard (bus (wire s))
                        (console (wire s) ++
                         [SerialPrintln "Scanning I2C bus..."%string]))
                     (mem s)).
  destruct (scan_loop_spec 126 1 0 s1) as (sts & Hlen & Hrun);
    [lia | lia | lia | lia |].
  cbv zeta in Hrun. destruct Hrun as (Hn & Hlog & Hcon & Hmem).
  exists sts. split; [exact Hlen |]. cbv zeta.
  assert (Haddr : map (fun k => 1 + Z.of_nat k) (seq 0 126) = scan_addresses).
  { unfold scan_addresses. rewrite <- seq_shift, map_map. apply map_ext.
    intros k. lia. }
  rewrite Haddr in Hn, Hlog, Hcon.
  unfold Sketch.scanI2CBus, bind.
  change (serial (SerialPrintln "Scanning I2C bus..."%string) s) with (tt, s1).
  cbv beta iota.
  destruct (Sketch.scan_loop 126 1 0 s1) as [count [[[w1 l1] c1] m1]].
  cbn [fst snd wire bus log console mem s1] in *.
  unfold scan_summary. rewrite Z.add_0_l in Hn.
  destruct (acknowledged (zip scan_addresses sts)) as [| a found] eqn:Hack.
  - cbn [length] in Hn. subst count l1 c1 m1.
    change (Z.of_nat 0 =? 0) with true. unfold serial.
    cbn [fst snd wire bus log console mem]. rewrite <- !app_assoc. auto.
  - assert (Hnz : (count =? 0) = false)
      by (apply Z.eqb_neq; cbn [length] in Hn; lia).
    rewrite Hnz. subst count l1 c1 m1. unfold serial.
    cbn [fst snd wire bus log console mem]. rewrite <- !app_assoc. auto.
Qed.

End Scan_recorded.

Section Scan_properties.
Context {W : Type} `{Wire.TwoWire W}.

Lemma scan_bus_shape (probes : list (Z * Z)) :
  no_data_call (scan_bus probes) /\
  begun_addresses (scan_bus probes) = probes.*1.
Proof.
  unfold no_data_call, scan_bus. induction probes as [| [a st] probes [IHn IHb]].
  - split; reflexivity.
  - cbn [flat_map fst snd]. split.
    + cbn. exact IHn.
    + cbn. f_equal. exact IHb.
Qed.

Lemma reported_app (c1 c2 : list serial_event) :
  reported (c1 ++ c2) = reported c1 ++ reported c2.
Proof. apply omap_app. Qed.

Lemma reported_scan_console (probes : list (Z * Z)) :
  reported (scan_console probes) = acknowledged probes.
Proof.
  unfold scan_console. induction probes as [| [a st] probes IH].
  - reflexivity.
  - cbn [flat_map fst snd]. rewrite acknowledged_cons, !reported_app, IH.
    destruct (st =? 0); [| reflexivity].
    unfold found_lines. destruct (a <? 16); reflexivity.
Qed.

Lemma scan_summary_shape (probes : list (Z * Z)) :
  reported (scan_summary probes) = [] /\
  last (scan_summary probes) =
    Some (if decide (acknowledged probes = [])
          then SerialPrintln "No I2C devices found."%string
          else SerialPrintlnDec (Z.of_nat (length (acknowledged probes)))).
Proof.
  unfold scan_summary. destruct (acknowledged probes) as [| a found].
  - split; reflexivity.
  - split; reflexivity.
Qed.

(** X10: [scanI2CBus] probes the addresses 1 to 126, each once and in
    increasing order, never 0 and never 127, with an empty transmission
    closed with a stop; it writes no byte and requests none, and leaves data
    memory alone. *)
Theorem scanI2CBus_probes (s : machine (Board (Logged W))) :
  exists statuses,
    length statuses = 126%nat /\
    log (bus (wire (Sketch.scanI2CBus s).2)) =
      log (bus (wire s)) ++ scan_bus (zip scan_addresses statuses) /\
    begun_addresses (scan_bus (zip scan_addresses statuses)) =
      map Z.of_nat (seq 1 126) /\
    no_data_call (scan_bus (zip scan_addresses statuses)) /\
    mem (Sketch.scanI2CBus s).2 = mem s.
Proof.
  destruct (scanI2CBus_spec s) as (sts & Hlen & Hlog & _ & Hmem).
  exists sts. split; [exact Hlen |]. split; [exact Hlog |].
  destruct (scan_bus_shape (zip scan_addresses sts)) as [Hnd Hbg].
  split; [| split; [exact Hnd | exact Hmem]].
  rewrite Hbg. apply fst_zip. rewrite Hlen. unfold scan_addresses.
  rewrite length_map, length_seq. lia.
Qed.

(** X11: the scan reports, in order, exactly the addresses whose probe got
    status 0, and ends with "No I2C devices found." when there is none and
    with the number of addresses reported otherwise. *)
Theorem scanI2CBus_report (s : machine (Board (Logged W))) :
  exists statuses printed,
    length statuses = 126%nat /\
    let probes := zip scan_addresses statuses in
    log (bus (wire (Sketch.scanI2CBus s).2)) =
      log (bus (wire s)) ++ scan_bus probes /\
    console (wire (Sketch.scanI2CBus s).2) = console (wire s) ++ printed /\
    reported printed = acknowledged probes /\
    last printed =
      Some (if decide (acknowledged probes = [])
            then SerialPrintln "No I2C devices found."%string
            else SerialPrintlnDec (Z.of_nat (length (acknowledged probes)))).
Proof.
  destruct (scanI2CBus_spec s) as (sts & Hlen & Hlog & Hcon & _).
  cbv zeta in Hcon.
  destruct (scan_summary_shape (zip scan_addresses sts)) as [Hrep Hlast].
  exists sts. eexists. split; [exact Hlen |]. cbv zeta.
  split; [exact Hlog |]. split; [exact Hcon |]. split.
  - rewrite !reported_app, reported_scan_console, Hrep, app_nil_r. reflexivity.
  - rewrite app_assoc, last_app, Hlast. reflexivity.
Qed.

End Scan_properties.

(** ** [setup] *)

Section Setup.
Context {W : Type} `{Wire.TwoWire W}.



Lemma bind_assoc {A B C} (m : M (Board (Logged W)) A) (f : A -> M _ B)
    (k : B -> M _ C) s :
  bind m (fun a => bind (f a) k) s = bind (bind m f) k s.
Proof. unfold bind. destruct (m s) as [a s1]. reflexivity. Qed.

(** What both variants of [setup] have done when [begin] returns: the
    transport configured, the scan, and the probe of [begin]; no register
    was touched. *)
Lemma setup_prefix c0 (s : machine (Board (Logged W))) :
  exists statuses status s2,
    bind Sketch.setup_bus (fun _ => begin c0 Sketch.SDA_PIN Sketch.SCL_PIN) s =
      ((status =? 0, set_initialized (status =? 0) c0), s2) /\
    length statuses = 126%nat /\
    log (bus (wire s2)) =
      log (bus (wire s)) ++
      ([EvBeginPins 21 22; EvSetClock 100000] ++
       scan_bus (zip scan_addresses statuses)) ++
      [EvBeginPins 21 22; EvSetClock (_i2cSpeed c0);
       EvBeginTransmission (_address c0); EvEndTransmission true status] /\
    console (wire s2) =
      console (wire s) ++
      [SerialBegin 115200; Delay 1000;
       SerialPrintln "Scanning I2C bus..."%string] ++
      scan_console (zip scan_addresses statuses) ++
      scan_summary (zip scan_addresses statuses) /\
    mem s2 = mem s.
Proof.
  destruct s as [[[w l] c] m].
  set (s1 := Machine
               (mkBoard
                  (mkLogged (Wire.setClock 100000 (Wire.begin_pins 21 22 w))
                     ((l ++ [EvBeginPins 21 22]) ++ [EvSetClock 100000]))
                  ((c ++ [SerialBegin 115200]) ++ [Delay 1000]))
               m).
  assert (Hbus : Sketch.setup_bus (Machine (mkBoard (mkLogged w l) c) m)
                 = Sketch.scanI2CBus s1) by reflexivity.
  destruct (scanI2CBus_spec s1) as (sts & Hlen & Hlog & Hcon & Hmem).
  cbv zeta in Hcon. unfold bind. rewrite Hbus.
  destruct (Sketch.scanI2CBus s1) as [[] [[[w2 l2] c2] m2]].
  cbn [fst snd wire bus log console mem s1] in *.
  change (Machine (mkBoard (mkLogged w2 l2) c2) m2)
    with (on_board c2 (Machine (mkLogged w2 l2) m2)).
  rewrite begin_on_board. cbv zeta.
  destruct (begin_logged c0 Sketch.SDA_PIN Sketch.SCL_PIN w2 l2 m2)
    as [status Hbegin].
  rewrite Hbegin. exists sts, status. eexists. split; [reflexivity |].
  cbn [fst snd wire bus log console mem on_board].
  split; [exact Hlen |]. subst l2 c2 m2.
  change ((Sketch.SDA_PIN >=? 0) && (Sketch.SCL_PIN >=? 0)) with true.
  cbv iota. rewrite <- !app_assoc. auto.
Qed.

Lemma no_data_call_app (l1 l2 : list event) :
  no_data_call (l1 ++ l2) <-> no_data_call l1 /\ no_data_call l2.
Proof. unfold no_data_call. rewrite forallb_app. apply andb_true_iff. Qed.


(** The bus traffic of the prefix moves no register data. *)
Lemma setup_prefix_no_data (probes : list (Z * Z)) speed address status :
  no_data_call
    (([EvBeginPins 21 22; EvSetClock 100000] ++ scan_bus probes) ++
     [EvBeginPins 21 22; EvSetClock speed;
      EvBeginTransmission address; EvEndTransmission true status]).
Proof.
  apply no_data_call_app. split; [| reflexivity].
  apply no_data_call_app. split; [reflexivity | apply scan_bus_shape].
Qed.

(** X12: when [setup] leaves the charger uninitialized (the probe of
    [begin] was not acknowledged), it has moved no register data on the bus,
    no byte written, none requested, none read, and the last thing it
    printed is the not-found message. *)
Theorem setup_without_device c0 (s : machine (Board (Logged W))) :
  _initialized (Sketch.setup c0 s).1 = false ->
  exists ext printed,
    log (bus (wire (Sketch.setup c0 s).2)) = log (bus (wire s)) ++ ext /\
    no_data_call ext /\
    console (wire (Sketch.setup c0 s).2) = console (wire s) ++ printed /\
    last printed = Some (SerialPrintln Sketch.not_found_message) /\
    mem (Sketch.setup c0 s).2 = mem s.
Proof.
  destruct (setup_prefix c0 s)
    as (sts & status & s2 & Heq & Hlen & Hlog & Hcon & Hmem).
  assert (Hsetup :
    Sketch.setup c0 s =
      (if status =? 0
       then (serial (SerialPrintln Sketch.dumping_message) ;;
             Sketch.dump_loop Sketch.knownRegisters
               (set_initialized (status =? 0) c0) ;;
             ret (set_initialized (status =? 0) c0))%drv
       else (serial (SerialPrintln Sketch.not_found_message) ;;
             ret (set_initialized (status =? 0) c0))%drv) s2).
  { unfold Sketch.setup. rewrite bind_assoc. unfold bind at 1.
    rewrite Heq. reflexivity. }
  rewrite Hsetup. clear Hsetup Heq. destruct (status =? 0).
  - unfold bind, serial, ret.
    destruct (Sketch.dump_loop _ _ _) as [[] s3]. cbn. discriminate.
  - intros _. unfold bind, serial, ret. cbn [fst snd wire bus log console mem].
    eexists _, _. split; [exact Hlog |].
    split; [apply setup_prefix_no_data |].
    split; [rewrite Hcon, <- app_assoc; reflexivity |].
    split; [| exact Hmem].
    rewrite !app_assoc. apply last_snoc.
Qed.



End Setup.

(** ** Runs of the further properties *)

Lemma failed_begin_blocks_witness :
  let run := begin Sketch.charger 21 22 Sketch.bench_alt in
  run.1.1 = false /\
  readRegister_value run.1.2 0x2F run.2 = (0xFFFF, run.2) /\
  writeRegister run.1.2 0x02 0x1770 run.2 = (false, run.2).
Proof.
  cbv zeta.
  assert (Hf : (begin Sketch.charger 21 22 Sketch.bench_alt).1.1 = false)
    by (vm_compute; reflexivity).
  split; [exact Hf |].
  pose proof (failed_begin_blocks Sketch.charger 21 22 0x2F nullptr 0x1770 0
                nullptr 0 Sketch.bench_alt Hf) as (_ & Hr & _ & _).
  pose proof (failed_begin_blocks Sketch.charger 21 22 0x02 nullptr 0x1770 0
                nullptr 0 Sketch.bench_alt Hf) as (_ & _ & Hw & _).
  split; [exact Hr | exact Hw].
Defined.

Lemma readRegister_stops_at_failure_witness :
  _initialized Bench.charger = true /\
  (readRegister Bench.charger 0x04 (Some 10) Bench.bench).1 = false /\
  log (wire (readRegister Bench.charger 0x04 (Some 10) Bench.bench).2) =
    [EvBeginTransmission 0x6B; EvWrite 0x04; EvEndTransmission false 0;
     EvRequestFrom 0x6B 2 0].
Proof.
  assert (Hf : (readRegister Bench.charger 0x04 (Some 10) Bench.bench).1 = false)
    by (vm_compute; reflexivity).
  split; [reflexivity |]. split; [exact Hf |].
  destruct (readRegister_stops_at_failure Bench.charger 0x04 10 Bench.bench
              eq_refl Hf) as [(st & _ & Hlog) | (got & _ & Hlog)];
    vm_compute; reflexivity.
Defined.

Lemma readMultipleRegisters_count_bounds_witness :
  _initialized Bench.charger = true /\
  is_u8 5 /\
  0 <= (readMultipleRegisters Bench.charger 0x02 (Some 10) 5 Bench.bench).1 <= 5.
Proof.
  split; [reflexivity |]. split; [unfold is_u8; lia |].
  apply (readMultipleRegisters_count_bounds Bench.charger 0x02 10 5 Bench.bench).
  - reflexivity.
  - unfold is_u8. lia.
Defined.


Lemma setup_without_device_witness :
  _initialized (Sketch.setup Sketch.charger Sketch.bench_alt).1 = false /\
  last (console (wire (Sketch.setup Sketch.charger Sketch.bench_alt).2)) =
    Some (SerialPrintln Sketch.not_found_message).
Proof.
  assert (Hf : _initialized (Sketch.setup Sketch.charger Sketch.bench_alt).1
               = false) by (vm_compute; reflexivity).
  split; [exact Hf |].
  destruct (setup_without_device Sketch.charger Sketch.bench_alt Hf)
    as (ext & printed & _ & _ & Hcon & Hlast & _).
  rewrite Hcon, last_app, Hlast. reflexivity.
Defined.

